(** * openstack_s3_transfer: a shallow embedding and its verified properties

    The Python module [openstack_s3_transfer.py] copies the objects of an
    OpenStack Swift container into an S3 bucket.  Its functions are embedded
    here as state-passing programs over an explicit [world]: the local
    filesystem, the destination store, the process environment and a
    chronological [trace] of every call made to a collaborator (Swift, S3,
    the logger, [time.sleep], [input]).  Python exceptions are a result
    constructor, so [try]/[except] and uncaught propagation read as in the
    source. *)

From Stdlib Require Import ZArith Ascii String List Lia DecimalString.
From Stdlib.Strings Require Import Byte.
From stdpp Require Import base option list gmap strings.

Local Open Scope string_scope.
Local Open Scope list_scope.

(** ** Python string and path primitives *)

Module PyStr.

Definition slash : ascii := "/"%char.
Definition dquote : ascii := "034"%char.

(** [s.startswith(c)] for a one-character [c]. *)
Definition startswith (c : ascii) (s : string) : bool :=
  match s with
  | String a _ => Ascii.eqb a c
  | EmptyString => false
  end.

(** [s.endswith(c)] for a one-character [c]. *)
Fixpoint endswith (c : ascii) (s : string) : bool :=
  match s with
  | EmptyString => false
  | String a rest =>
      match rest with
      | EmptyString => Ascii.eqb a c
      | String _ _ => endswith c rest
      end
  end.

Fixpoint lstrip (c : ascii) (s : string) : string :=
  match s with
  | EmptyString => EmptyString
  | String a rest => if Ascii.eqb a c then lstrip c rest else s
  end.

Fixpoint rstrip (c : ascii) (s : string) : string :=
  match s with
  | EmptyString => EmptyString
  | String a rest =>
      match rstrip c rest with
      | EmptyString => if Ascii.eqb a c then EmptyString else String a EmptyString
      | r => String a r
      end
  end.

(** [s.strip(c)]: every leading and trailing occurrence of [c] goes. *)
Definition strip (c : ascii) (s : string) : string := rstrip c (lstrip c s).

Fixpoint all_char (c : ascii) (s : string) : bool :=
  match s with
  | EmptyString => true
  | String a rest => Ascii.eqb a c && all_char c rest
  end.

Definition nonempty (s : string) : bool :=
  match s with EmptyString => false | String _ _ => true end.

(** [p[:p.rfind('/') + 1]] *)
Fixpoint upto_last_sep (p : string) : string :=
  match p with
  | EmptyString => EmptyString
  | String a rest =>
      match upto_last_sep rest with
      | EmptyString => if Ascii.eqb a slash then String a EmptyString else EmptyString
      | h => String a h
      end
  end.

(** [posixpath.join(a, b)] *)
Definition path_join (a b : string) : string :=
  if startswith slash b then b
  else if negb (nonempty a) || endswith slash a then a ++ b
  else a ++ "/" ++ b.

(** [posixpath.dirname(p)] *)
Definition path_dirname (p : string) : string :=
  let head := upto_last_sep p in
  if nonempty head && negb (all_char slash head) then rstrip slash head else head.

(** The directories [os.makedirs(p)] has to find or make: every non-empty
    prefix of [p] that stops in front of a separator, then [p] itself. *)
Fixpoint prefixes_at_sep (done : string) (rest : string) : list string :=
  match rest with
  | EmptyString => [done]
  | String a r =>
      (if Ascii.eqb a slash then [done] else [])
        ++ prefixes_at_sep (done ++ String a EmptyString) r
  end.

Definition path_components (p : string) : list string :=
  List.filter nonempty (prefixes_at_sep EmptyString p).

(** [str(n)] for an [int]. *)
Definition str_int (n : Z) : string :=
  NilZero.string_of_int (Z.to_int n).

End PyStr.

(** ** Exceptions, events and the world *)

(** [botocore.exceptions.ClientError]: [error.response["Error"]["Code"]] and
    the text [str(error)] renders. *)
Record client_error := { Code : string; Text : string }.

Inductive exn :=
| ClientError (err : client_error)
| ClientException (msg : string)        (* swiftclient *)
| S3UploadFailedError (msg : string)    (* boto3, not a ClientError *)
| FileNotFoundError (path : string)
| FileExistsError (path : string)
| IsADirectoryError (path : string)
| NotADirectoryError (path : string)
| ValueError (msg : string)
| PyException (msg : string).

Inductive level := DEBUG | INFO | WARNING | ERROR.

(** [create_s3_client] builds the client from three environment variables
    and the region. *)
Record s3_client := {
  aws_access_key_id : option string;
  aws_secret_access_key : option string;
  aws_session_token : option string;
  region_name : string
}.

Inductive event :=
| EvLog (lvl : level) (msg : string)
| EvSleep (seconds : Z)
| EvInput (prompt : string)
| EvGetContainer (container : string) (marker : option string)
| EvGetObject (container name : string)
| EvHeadBucket (bucket : string)
| EvHeadObject (bucket key : string)
| EvPutObject (bucket key : string)
| EvUploadFile (client : s3_client) (path bucket key : string) (max_bandwidth : Z)
| EvListObjectsV2 (bucket : string) (token : option string).

(** What one call of [s3Client.upload_file] does. *)
Inductive upload_result :=
| UploadOk
| UploadRaises (e : exn).

Record world := World {
  files : gmap string (list byte);          (* regular files, by path *)
  dirs : gset string;                       (* directories, by path *)
  s3_objects : gmap (string * string) (list byte);  (* (bucket, key) *)
  environ : gmap string string;             (* os.environ *)
  inputs_read : nat;                        (* lines consumed by input() *)
  upload_script : list upload_result;       (* answers of the coming upload_file calls *)
  trace : list event
}.

Definition set_files (f : gmap string (list byte)) (w : world) : world :=
  World f (dirs w) (s3_objects w) (environ w) (inputs_read w) (upload_script w) (trace w).
Definition set_dirs (d : gset string) (w : world) : world :=
  World (files w) d (s3_objects w) (environ w) (inputs_read w) (upload_script w) (trace w).
Definition set_s3_objects (o : gmap (string * string) (list byte)) (w : world) : world :=
  World (files w) (dirs w) o (environ w) (inputs_read w) (upload_script w) (trace w).
Definition set_environ (e : gmap string string) (w : world) : world :=
  World (files w) (dirs w) (s3_objects w) e (inputs_read w) (upload_script w) (trace w).
Definition set_inputs_read (n : nat) (w : world) : world :=
  World (files w) (dirs w) (s3_objects w) (environ w) n (upload_script w) (trace w).
Definition set_upload_script (s : list upload_result) (w : world) : world :=
  World (files w) (dirs w) (s3_objects w) (environ w) (inputs_read w) s (trace w).
Definition set_trace (t : list event) (w : world) : world :=
  World (files w) (dirs w) (s3_objects w) (environ w) (inputs_read w) (upload_script w) t.

Definition record (e : event) (w : world) : world :=
  set_trace (trace w ++ [e]) w.

(** ** The program monad: state, exceptions, and an unanswered call *)

(** [Unfinished] is the result of a run whose next step needs an answer the
    environment has not supplied: [upload_script] is used up, or a listing
    loop is out of fuel.  It is no exception: nothing catches it. *)
Inductive result (A : Type) :=
| Returns (a : A)
| Raises (e : exn)
| Unfinished.
Arguments Returns {A} a.
Arguments Raises {A} e.
Arguments Unfinished {A}.

Definition M (A : Type) : Type := world -> result A * world.

Definition ret {A} (a : A) : M A := fun w => (Returns a, w).
Definition raise {A} (e : exn) : M A := fun w => (Raises e, w).
Definition unfinished {A} : M A := fun w => (Unfinished, w).

Definition bind {A B} (m : M A) (k : A -> M B) : M B :=
  fun w =>
    match m w with
    | (Returns a, w') => k a w'
    | (Raises e, w') => (Raises e, w')
    | (Unfinished, w') => (Unfinished, w')
    end.

(** [try: m  except ...: handler] *)
Definition try_except {A} (m : M A) (handler : exn -> M A) : M A :=
  fun w =>
    match m w with
    | (Raises e, w') => handler e w'
    | other => other
    end.

Definition emit (e : event) : M unit := fun w => (Returns tt, record e w).
Definition gets {A} (f : world -> A) : M A := fun w => (Returns (f w), w).
Definition modify (f : world -> world) : M unit := fun w => (Returns tt, f w).

Notation "'let*' x ':=' m 'in' k" := (bind m (fun x => k))
  (at level 10, x name, m at level 100, k at level 200).

(** ** The collaborators *)

(** [hashlib.md5()]: a hash object, [update] and [hexdigest]. *)
Record hasher := {
  md5_state : Type;
  md5_new : md5_state;
  md5_update : md5_state -> list byte -> md5_state;
  md5_hexdigest : md5_state -> string
}.

(** An entry of a Swift container listing; the program reads its ["name"]. *)
Record swift_entry := { object_name : string }.

(** A [list_objects_v2] response; [Contents] holds the keys of the page. *)
Record list_response := {
  Contents : option (list string);
  IsTruncated : bool;
  NextContinuationToken : option string
}.

(** The behaviour of what the program calls and does not define: the hash
    library, the two stores' answers and faults, and the operator's
    keyboard.  The answers of [upload_file] are in [upload_script]. *)
Record services := {
  hashlib_md5 : hasher;
  swift_get_container : string -> option string -> exn + list swift_entry;
  swift_get_object : string -> string -> option (list byte);
  s3_head_bucket : string -> option client_error;
  s3_head_object_fault : string -> string -> option client_error;
  s3_put_object_fault : string -> string -> option client_error;
  s3_list_objects_v2 :
    gmap (string * string) (list byte) -> string -> option string -> exn + list_response;
  s3_etag : list byte -> string;
  stdin : nat -> string
}.

(** The answer of S3 to a [head_object] on a key that is not there. *)
Definition not_found : client_error :=
  {| Code := "404";
     Text := "An error occurred (404) when calling the HeadObject operation: Not Found" |}.

(** [iter(lambda: file.read(n), b"")] over a file holding [data]. *)
Fixpoint read_chunks (fuel n : nat) (data : list byte) : list (list byte) :=
  match fuel, data with
  | _, [] => []
  | O, _ => []
  | S fuel', _ => take n data :: read_chunks fuel' n (drop n data)
  end.

(** What [calculate_md5] computes from the bytes of the file: a fresh hash
    object, one [update] per 4096-byte chunk, [hexdigest]. *)
Definition file_md5 (h : hasher) (data : list byte) : string :=
  md5_hexdigest h
    (fold_left (md5_update h) (read_chunks (length data) 4096 data) (md5_new h)).

Section Program.

Variable sv : services.

(** *** Logger *)

(** [logging.basicConfig(level=logging.INFO, ...)] in [create_logger]. *)
Definition level_enabled (l : level) : bool :=
  match l with DEBUG => false | _ => true end.

Definition logger_log (l : level) (msg : string) : M unit :=
  if level_enabled l then emit (EvLog l msg) else ret tt.

Definition logger_debug := logger_log DEBUG.
Definition logger_info := logger_log INFO.
Definition logger_warning := logger_log WARNING.
Definition logger_error := logger_log ERROR.

(** *** Local filesystem, [time], [input], [os.environ] *)

Definition is_file (w : world) (p : string) : bool :=
  match files w !! p with Some _ => true | None => false end.

Definition is_dir (w : world) (p : string) : bool :=
  bool_decide (p ∈ dirs w).

(** [os.makedirs(name, exist_ok=True)] *)
Definition os_makedirs (name : string) : M unit := fun w =>
  if negb (PyStr.nonempty name) then (Raises (FileNotFoundError name), w)
  else
    match List.find (is_file w) (PyStr.path_components name) with
    | Some p =>
        (Raises (if String.eqb p name then FileExistsError p
                 else NotADirectoryError p), w)
    | None =>
        (Returns tt,
         set_dirs (list_to_set (PyStr.path_components name) ∪ dirs w) w)
    end.

Definition parent_exists (w : world) (p : string) : bool :=
  let d := PyStr.path_dirname p in
  negb (PyStr.nonempty d) || PyStr.all_char PyStr.slash d || is_dir w d.

(** [with open(path, "wb") as file: file.write(data)] *)
Definition open_write (path : string) (data : list byte) : M unit := fun w =>
  if PyStr.endswith PyStr.slash path || is_dir w path
  then (Raises (IsADirectoryError path), w)
  else if negb (parent_exists w path) then (Raises (FileNotFoundError path), w)
  else (Returns tt, set_files (<[path := data]> (files w)) w).

(** [open(path, "rb")] read to the end. *)
Definition open_read (path : string) : M (list byte) := fun w =>
  match files w !! path with
  | Some data => (Returns data, w)
  | None =>
      (Raises (if is_dir w path then IsADirectoryError path
               else FileNotFoundError path), w)
  end.

(** [os.remove(path)] *)
Definition os_remove (path : string) : M unit := fun w =>
  match files w !! path with
  | Some _ => (Returns tt, set_files (delete path (files w)) w)
  | None =>
      (Raises (if is_dir w path then IsADirectoryError path
               else FileNotFoundError path), w)
  end.

Definition os_path_exists (path : string) : M bool :=
  gets (fun w => is_file w path || is_dir w path).

(** [p] is [root] or lies below it; a [root] written with trailing
    separators names the same directory as without them. *)
Definition under (root p : string) : bool :=
  let r := PyStr.rstrip PyStr.slash root in
  String.eqb p root || String.eqb p r || String.prefix (r ++ "/") p.

(** [shutil.rmtree(path)] *)
Definition shutil_rmtree (path : string) : M unit := fun w =>
  if is_dir w path then
    (Returns tt,
     set_dirs (filter (fun p => under path p = false) (dirs w))
       (set_files (filter (fun kv => under path kv.1 = false) (files w)) w))
  else
    (Raises (if is_file w path then NotADirectoryError path
             else FileNotFoundError path), w).

Definition time_sleep (seconds : Z) : M unit := emit (EvSleep seconds).

(** [input(prompt)]: the operator's next line. *)
Definition input (prompt : string) : M string := fun w =>
  (Returns (stdin sv (inputs_read w)),
   set_inputs_read (S (inputs_read w)) (record (EvInput prompt) w)).

Definition os_getenv (k : string) : M (option string) :=
  gets (fun w => environ w !! k).

Definition os_environ_set (k v : string) : M unit :=
  modify (fun w => set_environ (<[k := v]> (environ w)) w).

(** *** Swift *)

Definition swift_connection_get_object (container name : string) : M (list byte) :=
  let* _ := emit (EvGetObject container name) in
  match swift_get_object sv container name with
  | Some data => ret data
  | None => raise (ClientException "Object GET failed")
  end.

Definition swift_connection_get_container (container : string) (marker : option string)
  : M (list swift_entry) :=
  let* _ := emit (EvGetContainer container marker) in
  match swift_get_container sv container marker with
  | inr page => ret page
  | inl e => raise e
  end.

(** *** S3 *)

Definition s3_client_head_bucket (bucket : string) : M unit :=
  let* _ := emit (EvHeadBucket bucket) in
  match s3_head_bucket sv bucket with
  | None => ret tt
  | Some err => raise (ClientError err)
  end.

(** [head_object]: the response's ["ETag"], or a [ClientError]; code 404
    when the key is not in the bucket. *)
Definition s3_client_head_object (bucket key : string) : M string :=
  let* _ := emit (EvHeadObject bucket key) in
  match s3_head_object_fault sv bucket key with
  | Some err => raise (ClientError err)
  | None =>
      let* objects := gets s3_objects in
      match objects !! (bucket, key) with
      | Some data => ret (s3_etag sv data)
      | None => raise (ClientError not_found)
      end
  end.

(** [put_object(Bucket=..., Key=...)] with no [Body]: a zero-byte object. *)
Definition s3_client_put_object (bucket key : string) : M unit :=
  let* _ := emit (EvPutObject bucket key) in
  match s3_put_object_fault sv bucket key with
  | Some err => raise (ClientError err)
  | None => modify (fun w => set_s3_objects (<[(bucket, key) := []]> (s3_objects w)) w)
  end.

(** [upload_file(path, bucket, key, Config=config)]: the call is recorded,
    the local file is read, and the next entry of [upload_script] says
    whether the store takes it. *)
Definition s3_client_upload_file (client : s3_client)
    (path bucket key : string) (config : Z) : M unit :=
  let* _ := emit (EvUploadFile client path bucket key config) in
  let* data := open_read path in
  fun w =>
    match upload_script w with
    | [] => (Unfinished, w)
    | UploadOk :: rest =>
        (Returns tt,
         set_s3_objects (<[(bucket, key) := data]> (s3_objects w))
           (set_upload_script rest w))
    | UploadRaises e :: rest => (Raises e, set_upload_script rest w)
    end.

Definition s3_client_list_objects_v2 (bucket : string) (token : option string)
  : M list_response :=
  let* _ := emit (EvListObjectsV2 bucket token) in
  let* objects := gets s3_objects in
  match s3_list_objects_v2 sv objects bucket token with
  | inr response => ret response
  | inl e => raise e
  end.

(** ** The program, function by function *)

(** [create_logger]: the handlers it installs are the [EvLog] events of
    the trace; the threshold is [level_enabled]. *)
Definition create_logger (openStackContainer s3Bucket : string) : M unit := ret tt.

(** [create_openstack_session]: the Swift session; its answers are
    [swift_get_container] and [swift_get_object]. *)
Definition create_openstack_session : M unit := ret tt.

Definition create_s3_client (regionName : string) : M s3_client :=
  let* key_id := os_getenv "AWS_ACCESS_KEY_ID" in
  let* secret := os_getenv "AWS_SECRET_ACCESS_KEY" in
  let* token := os_getenv "AWS_SESSION_TOKEN" in
  ret {| aws_access_key_id := key_id;
         aws_secret_access_key := secret;
         aws_session_token := token;
         region_name := regionName |}.

Definition refresh_credentials (regionName : string) : M s3_client :=
  let* awsAccessKeyID := input "Enter AWS Access Key ID: " in
  let* awsSecretAccessKey := input "Enter AWS Secret Access Key: " in
  let* awsSessionToken := input "Enter AWS Session Token: " in
  let* _ := os_environ_set "AWS_ACCESS_KEY_ID" awsAccessKeyID in
  let* _ := os_environ_set "AWS_SECRET_ACCESS_KEY" awsSecretAccessKey in
  let* _ := os_environ_set "AWS_SESSION_TOKEN" awsSessionToken in
  create_s3_client regionName.

Definition create_temp_directory (tempDirectory : string) : M unit :=
  os_makedirs tempDirectory.

Definition remove_temp_directory (tempDirectory : string) : M unit :=
  let* there := os_path_exists tempDirectory in
  if there then
    let* _ := shutil_rmtree tempDirectory in
    logger_info "Temporary files have been removed"
  else ret tt.

Definition ensure_bucket_exists (bucketName : string) : M unit :=
  try_except
    (s3_client_head_bucket bucketName)
    (fun e =>
       match e with
       | ClientError error =>
           if String.eqb (Code error) "404" then
             let* _ := logger_error
               ("Bucket " ++ bucketName ++ " does not exist. Exiting the script") in
             raise (PyException ("S3 bucket '" ++ bucketName ++ "' does not exist."))
           else
             let* _ := logger_error
               ("Failed to access bucket " ++ bucketName ++ ": " ++ Text error) in
             raise e
       | _ => raise e
       end).

(** The [while True] of [list_openstack_objects]; [fuel] bounds the pages. *)
Fixpoint list_openstack_pages (fuel : nat) (containerName : string)
    (objects : list swift_entry) (marker : option string) : M (list swift_entry) :=
  match fuel with
  | O => unfinished
  | S fuel' =>
      let* page := swift_connection_get_container containerName marker in
      match last page with
      | None => ret objects
      | Some final =>
          list_openstack_pages fuel' containerName (objects ++ page)
            (Some (object_name final))
      end
  end.

Definition list_openstack_objects (fuel : nat) (containerName : string)
  : M (list swift_entry) :=
  let* objects := list_openstack_pages fuel containerName [] None in
  let* _ := logger_debug
    ("Retrieved " ++ PyStr.str_int (Z.of_nat (length objects))
       ++ " objects from container '" ++ containerName ++ "'.") in
  ret objects.

(** [if continuationToken:] *)
Definition truthy (token : option string) : bool :=
  match token with Some t => PyStr.nonempty t | None => false end.

(** The [while True] of [list_s3_objects]. *)
Fixpoint list_s3_pages (fuel : nat) (bucketName : string)
    (objects : list string) (continuationToken : option string) : M (list string) :=
  match fuel with
  | O => unfinished
  | S fuel' =>
      let* response :=
        if truthy continuationToken
        then s3_client_list_objects_v2 bucketName continuationToken
        else s3_client_list_objects_v2 bucketName None in
      let objects :=
        match Contents response with
        | Some page => objects ++ page
        | None => objects
        end in
      if IsTruncated response
      then list_s3_pages fuel' bucketName objects (NextContinuationToken response)
      else ret objects
  end.

Definition list_s3_objects (fuel : nat) (bucketName : string) : M (list string) :=
  let* objects := list_s3_pages fuel bucketName [] None in
  let* _ := logger_debug
    ("Retrieved " ++ PyStr.str_int (Z.of_nat (length objects))
       ++ " objects from S3 bucket '" ++ bucketName ++ "'.") in
  ret objects.

Definition calculate_md5 (filePath : string) : M string :=
  let* data := open_read filePath in
  ret (file_md5 (hashlib_md5 sv) data).

(** One turn of the [while] of [upload_file_with_retry]: [inl b] is
    [return b], [inr (client, attempt)] the state of the next turn. *)
Definition upload_attempt (localFilePath bucketName objectName : string)
    (config retries : Z) (s3Client : s3_client) (attempt : Z)
  : M (bool + s3_client * Z) :=
  try_except
    (let* _ := s3_client_upload_file s3Client localFilePath bucketName objectName config in
     let* _ := logger_info
       (objectName ++ " uploaded successfully on attempt "
          ++ PyStr.str_int (attempt + 1) ++ ".") in
     ret (inl true))
    (fun e =>
       match e with
       | ClientError error =>
           if String.eqb (Code error) "ExpiredToken" then
             let* _ := logger_warning "AWS session expired. Requesting new credentials." in
             let* s3Client := refresh_credentials (region_name s3Client) in
             ret (inr (s3Client, attempt))
           else
             let attempt := (attempt + 1)%Z in
             let* _ := logger_error
               ("Failed to upload " ++ objectName ++ " (attempt "
                  ++ PyStr.str_int (attempt + 1) ++ "/" ++ PyStr.str_int retries
                  ++ "): " ++ Text error) in
             let* _ := time_sleep (2 ^ attempt) in
             ret (inr (s3Client, attempt))
       | _ => raise e
       end).

(** [while attempt < retries: ...], then [return False].  Every turn that
    comes back for another consumes one entry of [upload_script], so
    [turns] bounds the turns and never the loop. *)
Fixpoint upload_loop (turns : nat) (localFilePath bucketName objectName : string)
    (config retries : Z) (s3Client : s3_client) (attempt : Z) : M bool :=
  if (attempt <? retries)%Z then
    match turns with
    | O => unfinished
    | S turns' =>
        let* next := upload_attempt localFilePath bucketName objectName
                       config retries s3Client attempt in
        match next with
        | inl b => ret b
        | inr (s3Client, attempt) =>
            upload_loop turns' localFilePath bucketName objectName
              config retries s3Client attempt
        end
    end
  else ret false.

Definition upload_file_with_retry (localFilePath bucketName objectName : string)
    (s3Client : s3_client) (config retries : Z) : M bool :=
  fun w =>
    upload_loop (S (length (upload_script w))) localFilePath bucketName objectName
      config retries s3Client 0%Z w.

(** Lines 163 to 166 of [transfer_object]: upload, report, remove. *)
Definition upload_then_remove (tempFilePath s3Bucket objectName : string)
    (s3Client : s3_client) (config retries : Z) : M unit :=
  let* uploadSuccess :=
    upload_file_with_retry tempFilePath s3Bucket objectName s3Client config retries in
  let* _ :=
    if negb uploadSuccess
    then logger_error ("Failed to upload " ++ objectName ++ ". Exiting the script.")
    else ret tt in
  os_remove tempFilePath.

(** Lines 146 to 161: [true] is the [return] of the up-to-date branch. *)
Definition probe_destination (tempFilePath s3Bucket objectName localMD5 : string)
  : M bool :=
  try_except
    (let* s3HeadETag := s3_client_head_object s3Bucket objectName in
     let s3MD5 := PyStr.strip PyStr.dquote s3HeadETag in
     if String.eqb localMD5 s3MD5 then
       let* _ := logger_info (objectName ++ " is up to date in S3. Skipping upload.") in
       let* _ := os_remove tempFilePath in
       ret true
     else
       let* _ := logger_info
         (objectName ++ " exists but has changed. Overwriting " ++ objectName ++ "...") in
       ret false)
    (fun e =>
       match e with
       | ClientError error =>
           if String.eqb (Code error) "404" then
             let* _ := logger_info
               (objectName ++ " does not exist in S3. Uploading " ++ objectName ++ "...") in
             ret false
           else
             let* _ := logger_error
               ("Failed to access object " ++ objectName ++ ": " ++ Text error) in
             raise e
       | _ => raise e
       end).

Definition transfer_object (object : swift_entry) (s3Client : s3_client) (config : Z)
    (tempDirectory openStackContainer s3Bucket : string) (retries : Z) : M unit :=
  let objectName := object_name object in
  let tempFilePath := PyStr.path_join tempDirectory objectName in
  let* _ := os_makedirs (PyStr.path_dirname tempFilePath) in
  if PyStr.endswith PyStr.slash objectName then
    let* _ := s3_client_put_object s3Bucket objectName in
    logger_info ("Creating directory structure " ++ objectName ++ " in S3.")
  else
    let* objectContents := swift_connection_get_object openStackContainer objectName in
    let* _ := open_write tempFilePath objectContents in
    let* _ := logger_debug ("Downloaded " ++ objectName ++ " to " ++ tempFilePath) in
    let* localMD5 := calculate_md5 tempFilePath in
    let* returned := probe_destination tempFilePath s3Bucket objectName localMD5 in
    if returned then ret tt
    else upload_then_remove tempFilePath s3Bucket objectName s3Client config retries.

(** [with ThreadPoolExecutor(max_workers=maxWorkers) as executor] and the
    [executor.submit] calls inside it.  A submitted task runs to its end
    and its return value or exception is kept in its future; leaving the
    [with] block waits for all of them.  The tasks are run here one after
    the other in the order of submission, which is the schedule of one
    worker. *)
Fixpoint executor_run (tasks : list (M unit)) : M (list (result unit)) :=
  match tasks with
  | [] => ret []
  | task :: rest =>
      fun w =>
        match task w with
        | (Unfinished, w') => (Unfinished, w')
        | (outcome, w') =>
            (let* futures := executor_run rest in ret (outcome :: futures)) w'
        end
  end.

Definition thread_pool_executor (maxWorkers : Z) (tasks : list (M unit))
  : M (list (result unit)) :=
  if (maxWorkers <=? 0)%Z then raise (ValueError "max_workers must be greater than 0")
  else executor_run tasks.

(** [TransferConfig(max_bandwidth=...)]: the constructor refuses a value
    that is not positive. *)
Definition transfer_config (max_bandwidth : Z) : M Z :=
  if (max_bandwidth <=? 0)%Z
  then raise (ValueError ("Provided parameter max_bandwidth of value "
                            ++ PyStr.str_int max_bandwidth
                            ++ " must be greater than 0."))
  else ret max_bandwidth.

Definition main (fuel : nat) (openStackContainer s3Bucket : string) (maxWorkers : Z)
    (regionName : string) (bandwidthLimitMb : Z) : M unit :=
  let* _ := create_logger openStackContainer s3Bucket in
  let* _ := logger_info "Starting OpenStack to S3 transfer..." in
  let tempDirectory := ("/tmp/" ++ s3Bucket)%string in
  let* _ := create_temp_directory tempDirectory in
  let* _ := create_openstack_session in
  let* s3Client := create_s3_client regionName in
  let* _ := ensure_bucket_exists s3Bucket in
  let* config := transfer_config (bandwidthLimitMb * 1024 * 1024) in
  let* openstack_objects := list_openstack_objects fuel openStackContainer in
  let retries := 3%Z in
  match openstack_objects with
  | [] => logger_warning "No objects found in OpenStack container."
  | _ :: _ =>
      let* _ := thread_pool_executor maxWorkers
        (map (fun obj => transfer_object obj s3Client config tempDirectory
                           openStackContainer s3Bucket retries)
             openstack_objects) in
      let* _ := remove_temp_directory tempDirectory in
      let* s3_objects := list_s3_objects fuel s3Bucket in
      let* _ := logger_info
        ("Total objects in OpenStack container '" ++ openStackContainer ++ "': "
           ++ PyStr.str_int (Z.of_nat (length openstack_objects))) in
      let* _ := logger_info
        ("Total objects in S3 bucket '" ++ s3Bucket ++ "': "
           ++ PyStr.str_int (Z.of_nat (length s3_objects))) in
      let* _ :=
        if Nat.eqb (length openstack_objects) (length s3_objects)
        then logger_info "Object count matches between OpenStack container and S3 bucket."
        else logger_warning
               "Object count mismatch between OpenStack container and S3 bucket." in
      logger_info "OpenStack to S3 transfer process completed."
  end.

End Program.

Arguments PyStr.str_int : simpl never.

(** ** Observations on a trace *)

Definition sleeps (t : list event) : list Z :=
  flat_map (fun e => match e with EvSleep s => [s] | _ => [] end) t.

Definition is_upload_call (e : event) : bool :=
  match e with EvUploadFile _ _ _ _ _ => true | _ => false end.

Definition upload_calls (t : list event) : nat :=
  length (List.filter is_upload_call t).

Definition is_download (e : event) : bool :=
  match e with EvGetObject _ _ => true | _ => false end.

Definition is_refresh_prompt (e : event) : bool :=
  match e with EvInput "Enter AWS Access Key ID: " => true | _ => false end.

(** The number of times [refresh_credentials] was entered. *)
Definition refreshes (t : list event) : nat :=
  length (List.filter is_refresh_prompt t).

Definition log_lines (t : list event) : list (level * string) :=
  flat_map (fun e => match e with EvLog l m => [(l, m)] | _ => [] end) t.

(** Some line of level [l] is in the log. *)
Definition logged_at (l : level) (t : list event) : Prop :=
  exists msg, In (EvLog l msg) t.

(** The answers of [upload_file] the retry loop tells apart. *)
Definition is_expiry (r : upload_result) : bool :=
  match r with
  | UploadRaises (ClientError err) => String.eqb (Code err) "ExpiredToken"
  | _ => false
  end.

(** The script with the token expiries taken out. *)
Definition without_expiry (script : list upload_result) : list upload_result :=
  List.filter (fun r => negb (is_expiry r)) script.

(** How many answers of a script are token expiries, and how many are
    not. *)
Definition expiry_count (script : list upload_result) : nat :=
  length (List.filter is_expiry script).

Definition plain_count (script : list upload_result) : nat :=
  length (without_expiry script).

(** A [ClientError] whose code is not ["ExpiredToken"]. *)
Definition plain_failure (r : upload_result) : Prop :=
  exists err, r = UploadRaises (ClientError err) /\ Code err <> "ExpiredToken".

(** ** The worlds the retry loop goes through *)

Section RetryStates.

Variable sv : services.
Variables (path bucket key : string) (config retries : Z).

Definition call (client : s3_client) : event :=
  EvUploadFile client path bucket key config.

Definition after_ok (client : s3_client) (attempt : Z) (data : list byte)
    (rest : list upload_result) (w : world) : world :=
  record (EvLog INFO (key ++ " uploaded successfully on attempt "
                        ++ PyStr.str_int (attempt + 1) ++ "."))
    (set_s3_objects (<[(bucket, key) := data]> (s3_objects w))
       (set_upload_script rest (record (call client) w))).

Definition after_failed (client : s3_client) (attempt : Z) (err : client_error)
    (rest : list upload_result) (w : world) : world :=
  record (EvSleep (2 ^ (attempt + 1)))
    (record (EvLog ERROR ("Failed to upload " ++ key ++ " (attempt "
               ++ PyStr.str_int (attempt + 1 + 1) ++ "/" ++ PyStr.str_int retries
               ++ "): " ++ Text err))
       (set_upload_script rest (record (call client) w))).

Definition before_refresh (client : s3_client) (rest : list upload_result)
    (w : world) : world :=
  record (EvLog WARNING "AWS session expired. Requesting new credentials.")
    (set_upload_script rest (record (call client) w)).

Definition refresh_world (region : string) (w : world) : world :=
  snd (refresh_credentials sv region w).

Definition refresh_client (region : string) (w : world) : s3_client :=
  match fst (refresh_credentials sv region w) with
  | Returns c => c
  | _ => {| aws_access_key_id := None; aws_secret_access_key := None;
            aws_session_token := None; region_name := region |}
  end.

End RetryStates.

(** ** A batch of objects *)

Section Batch.

Variable sv : services.
Variables (client : s3_client) (config : Z).
Variables (tempDirectory openStackContainer s3Bucket : string) (retries : Z).

(** The tasks [main] submits to the executor, one per listed object. *)
Definition transfer_tasks (objects : list swift_entry) : list (M unit) :=
  map (fun obj => transfer_object sv obj client config tempDirectory
                    openStackContainer s3Bucket retries) objects.

Definition is_regular (obj : swift_entry) : Prop :=
  PyStr.endswith PyStr.slash (object_name obj) = false.

(** In world [w] the staging directory of [name] can be made and its
    staged file opened for writing. *)
Definition can_stage (w : world) (name : string) : bool :=
  let path := PyStr.path_join tempDirectory name in
  match os_makedirs (PyStr.path_dirname path) w with
  | (Returns _, w1) =>
      match open_write path [] (record (EvGetObject openStackContainer name) w1) with
      | (Returns _, _) => true
      | _ => false
      end
  | _ => false
  end.

(** Along the run of the batch from [w], every regular object finds its
    staging directory and file writable when its turn comes. *)
Fixpoint staging_succeeds (objects : list swift_entry) (w : world) : Prop :=
  match objects with
  | [] => True
  | obj :: rest =>
      (is_regular obj -> can_stage w (object_name obj) = true)
      /\ staging_succeeds rest
           (snd (transfer_object sv obj client config tempDirectory
                   openStackContainer s3Bucket retries w))
  end.

(** A regular object the source lets read, whose probe is not made to
    fail, and for whose bytes the destination reports, between quotes, the
    digest [calculate_md5] computes. *)
Definition transferable (obj : swift_entry) : Prop :=
  is_regular obj ->
  exists data,
    swift_get_object sv openStackContainer (object_name obj) = Some data
    /\ s3_head_object_fault sv s3Bucket (object_name obj) = None
    /\ PyStr.strip PyStr.dquote (s3_etag sv data) = file_md5 (hashlib_md5 sv) data.

(** The destination holds, under the key of [obj], bytes whose reported
    digest is the digest of the source's bytes. *)
Definition in_sync (w : world) (obj : swift_entry) : Prop :=
  exists data held,
    swift_get_object sv openStackContainer (object_name obj) = Some data
    /\ s3_objects w !! (s3Bucket, object_name obj) = Some held
    /\ PyStr.strip PyStr.dquote (s3_etag sv held) = file_md5 (hashlib_md5 sv) data.

Definition skip_line (obj : swift_entry) : event :=
  EvLog INFO (object_name obj ++ " is up to date in S3. Skipping upload.").

End Batch.

(** ** What the stores answer to a listing *)

Section Listings.

Variable sv : services.

(** The name [list_openstack_objects] takes as the next marker. *)
Definition next_marker (page : list swift_entry) (marker : option string)
  : option string :=
  match last page with
  | Some final => Some (object_name final)
  | None => marker
  end.

(** Asked from [marker] on, the container answers the non-empty [pages]
    one after the other, each asked with the last name of the one before,
    and then an empty page. *)
Fixpoint swift_pages (container : string) (marker : option string)
    (pages : list (list swift_entry)) : Prop :=
  match pages with
  | [] => swift_get_container sv container marker = inr []
  | page :: later =>
      page <> []
      /\ swift_get_container sv container marker = inr page
      /\ swift_pages container (next_marker page marker) later
  end.

(** The token [list_s3_objects] sends: none when it holds no token or an
    empty one. *)
Definition sent_token (token : option string) : option string :=
  if truthy token then token else None.

Definition page_keys (response : list_response) : list string :=
  match Contents response with
  | Some keys => keys
  | None => []
  end.

(** Asked with [token], the bucket answers [response]; every answer but the
    last of [response :: later] is truncated, and each later one is the
    answer to the token of the one before. *)
Fixpoint s3_pages (objects : gmap (string * string) (list byte)) (bucket : string)
    (token : option string) (response : list_response) (later : list list_response)
  : Prop :=
  s3_list_objects_v2 sv objects bucket (sent_token token) = inr response
  /\ match later with
     | [] => IsTruncated response = false
     | next :: later' =>
         IsTruncated response = true
         /\ s3_pages objects bucket (NextContinuationToken response) next later'
     end.

End Listings.

(** The markers of the successive [get_container] calls. *)
Fixpoint markers_asked (marker : option string) (pages : list (list swift_entry))
  : list (option string) :=
  marker ::
    match pages with
    | [] => []
    | page :: later => markers_asked (next_marker page marker) later
    end.

(** The tokens of the successive [list_objects_v2] calls. *)
Fixpoint tokens_sent (token : option string) (response : list_response)
    (later : list list_response) : list (option string) :=
  sent_token token ::
    match later with
    | [] => []
    | next :: later' => tokens_sent (NextContinuationToken response) next later'
    end.

Definition is_get_container (e : event) : bool :=
  match e with EvGetContainer _ _ => true | _ => false end.

Definition is_list_objects (e : event) : bool :=
  match e with EvListObjectsV2 _ _ => true | _ => false end.

(** [2 ** attempt] for the attempts [first + 1], ..., [first + count]. *)
Definition backoffs (first : Z) (count : nat) : list Z :=
  map (fun i => (2 ^ (first + 1 + Z.of_nat i))%Z) (seq 0 count).

(** ** Test doubles

    A small hash object, a Swift container and an S3 bucket to run the
    program on: the digest is a 16-bit rolling checksum printed in decimal,
    and the bucket reports it between double quotes, the way S3 reports the
    MD5 of an object that was uploaded in one part. *)

Module Double.

Definition checksum (acc : Z) (chunk : list byte) : Z :=
  fold_left (fun a b => ((a * 31 + Z.of_N (Byte.to_N b)) mod 65536)%Z) chunk acc.

Definition checksum_hasher : hasher :=
  {| md5_state := Z; md5_new := 7%Z; md5_update := checksum;
     md5_hexdigest := PyStr.str_int |}.

Definition quoted (s : string) : string :=
  String PyStr.dquote (s ++ String PyStr.dquote EmptyString).

Definition lookup_assoc {A} (k : string) (l : list (string * A)) : option A :=
  match List.find (fun kv => String.eqb kv.1 k) l with
  | Some kv => Some kv.2
  | None => None
  end.

(** A container holding [source], listed in one page, and a bucket whose
    [head_object] fails as [head_faults] says. *)
Definition store (source : list (string * option (list byte)))
    (head_faults : list (string * client_error)) : services :=
  {| hashlib_md5 := checksum_hasher;
     swift_get_container := fun _ marker =>
       match marker with
       | None => inr (map (fun kv => {| object_name := kv.1 |}) source)
       | Some _ => inr []
       end;
     swift_get_object := fun _ name =>
       match lookup_assoc name source with
       | Some content => content
       | None => None
       end;
     s3_head_bucket := fun _ => None;
     s3_head_object_fault := fun _ key => lookup_assoc key head_faults;
     s3_put_object_fault := fun _ _ => None;
     s3_list_objects_v2 := fun objects bucket _ =>
       inr {| Contents := Some (map (fun kv => kv.1.2) (map_to_list objects));
              IsTruncated := false; NextContinuationToken := None |};
     s3_etag := fun data => quoted (file_md5 checksum_hasher data);
     stdin := fun n => ("line" ++ PyStr.str_int (Z.of_nat n))%string |}.

Definition empty_world : world := World ∅ ∅ ∅ ∅ 0 [] [].

Definition client : s3_client :=
  {| aws_access_key_id := None; aws_secret_access_key := None;
     aws_session_token := None; region_name := "eu-west-1" |}.

Definition failure (code : string) : upload_result :=
  UploadRaises (ClientError {| Code := code; Text := "refused" |}).

Definition server_error : client_error :=
  {| Code := "500"; Text := "An error occurred (500)" |}.

(** A world whose staging area holds [a.txt], about to be uploaded. *)
Definition staged (script : list upload_result) : world :=
  set_files {[ "/tmp/bucket/a.txt" := [x68; x69] ]}
    (set_dirs {[ "/tmp"; "/tmp/bucket" ]} (set_upload_script script empty_world)).

(** Stores that answer a listing in pages: the container in two pages and
    an empty one, the bucket in a truncated answer and a last one. *)
Definition paged : services :=
  {| hashlib_md5 := checksum_hasher;
     swift_get_container := fun _ marker =>
       match marker with
       | None => inr [ {| object_name := "a.txt" |}; {| object_name := "b.txt" |} ]
       | Some "b.txt" => inr [ {| object_name := "c.txt" |} ]
       | Some _ => inr []
       end;
     swift_get_object := fun _ _ => None;
     s3_head_bucket := fun _ => None;
     s3_head_object_fault := fun _ _ => None;
     s3_put_object_fault := fun _ _ => None;
     s3_list_objects_v2 := fun _ _ token =>
       match token with
       | None => inr {| Contents := Some ["a.txt"; "b.txt"]; IsTruncated := true;
                        NextContinuationToken := Some "page2" |}
       | Some _ => inr {| Contents := Some ["c.txt"]; IsTruncated := false;
                          NextContinuationToken := None |}
       end;
     s3_etag := fun data => quoted (file_md5 checksum_hasher data);
     stdin := fun n => ("line" ++ PyStr.str_int (Z.of_nat n))%string |}.

(** Stores whose listings do not end: the container never answers an empty
    page, the bucket answers truncated and without a token. *)
Definition endless : services :=
  {| hashlib_md5 := checksum_hasher;
     swift_get_container := fun _ _ => inr [ {| object_name := "a.txt" |} ];
     swift_get_object := fun _ _ => None;
     s3_head_bucket := fun _ => None;
     s3_head_object_fault := fun _ _ => None;
     s3_put_object_fault := fun _ _ => None;
     s3_list_objects_v2 := fun _ _ _ =>
       inr {| Contents := Some ["a.txt"]; IsTruncated := true;
              NextContinuationToken := None |};
     s3_etag := fun data => quoted (file_md5 checksum_hasher data);
     stdin := fun n => ("line" ++ PyStr.str_int (Z.of_nat n))%string |}.

End Double.

(** ** Lemmas on traces *)

Lemma sleeps_app t1 t2 : sleeps (t1 ++ t2) = sleeps t1 ++ sleeps t2.
Proof. unfold sleeps. apply flat_map_app. Qed.

Lemma upload_calls_app t1 t2 : upload_calls (t1 ++ t2) = upload_calls t1 + upload_calls t2.
Proof. unfold upload_calls. now rewrite List.filter_app, length_app. Qed.

Lemma refreshes_app t1 t2 : refreshes (t1 ++ t2) = refreshes t1 + refreshes t2.
Proof. unfold refreshes. now rewrite List.filter_app, length_app. Qed.

Lemma log_lines_app t1 t2 : log_lines (t1 ++ t2) = log_lines t1 ++ log_lines t2.
Proof. unfold log_lines. apply flat_map_app. Qed.

(** ** The retry loop, one answer at a time *)

Section Retry.

Variable sv : services.
Variables (path bucket key : string) (config retries : Z).

Local Abbreviation attempt_once := (upload_attempt sv path bucket key config retries).
Local Abbreviation loop := (fun turns => upload_loop sv turns path bucket key config retries).

Lemma refresh_credentials_returns region w :
  refresh_credentials sv region w
  = (Returns (refresh_client sv region w), refresh_world sv region w).
Proof. reflexivity. Qed.

Lemma refresh_world_trace region w :
  trace (refresh_world sv region w)
  = trace w ++ [EvInput "Enter AWS Access Key ID: ";
                EvInput "Enter AWS Secret Access Key: ";
                EvInput "Enter AWS Session Token: "].
Proof. unfold refresh_world. simpl. now rewrite <- !app_assoc. Qed.

Lemma refresh_world_frame region w :
  files (refresh_world sv region w) = files w
  /\ dirs (refresh_world sv region w) = dirs w
  /\ s3_objects (refresh_world sv region w) = s3_objects w
  /\ upload_script (refresh_world sv region w) = upload_script w.
Proof. repeat split. Qed.

Lemma upload_attempt_ok client attempt w data rest :
  files w !! path = Some data ->
  upload_script w = UploadOk :: rest ->
  attempt_once client attempt w
  = (Returns (inl true), after_ok path bucket key config client attempt data rest w).
Proof.
  intros Hf Hs.
  unfold upload_attempt, try_except, s3_client_upload_file, bind, emit, open_read.
  simpl. rewrite Hf. simpl. rewrite Hs. reflexivity.
Qed.

Lemma upload_attempt_failed client attempt w data err rest :
  files w !! path = Some data ->
  upload_script w = UploadRaises (ClientError err) :: rest ->
  Code err <> "ExpiredToken" ->
  attempt_once client attempt w
  = (Returns (inr (client, (attempt + 1)%Z)), after_failed path bucket key config retries client attempt err rest w).
Proof.
  intros Hf Hs Hc. apply String.eqb_neq in Hc.
  unfold upload_attempt, try_except, s3_client_upload_file, bind, emit, open_read.
  simpl. rewrite Hf. simpl. rewrite Hs. simpl. rewrite Hc. reflexivity.
Qed.

Lemma upload_attempt_expired client attempt w data err rest :
  files w !! path = Some data ->
  upload_script w = UploadRaises (ClientError err) :: rest ->
  Code err = "ExpiredToken" ->
  attempt_once client attempt w
  = (Returns (inr (refresh_client sv (region_name client) (before_refresh path bucket key config client rest w),
                   attempt)),
     refresh_world sv (region_name client) (before_refresh path bucket key config client rest w)).
Proof.
  intros Hf Hs Hc. apply String.eqb_eq in Hc.
  assert (Htry :
            (let* _ := s3_client_upload_file client path bucket key config in
             let* _ := logger_info
               (key ++ " uploaded successfully on attempt "
                  ++ PyStr.str_int (attempt + 1) ++ ".") in
             ret (inl true)) w
            = (@Raises (bool + s3_client * Z) (ClientError err),
               set_upload_script rest (record (call path bucket key config client) w))).
  { unfold s3_client_upload_file, bind, emit, open_read.
    simpl. rewrite Hf. simpl. rewrite Hs. reflexivity. }
  unfold upload_attempt, try_except. rewrite Htry. cbv beta iota. rewrite Hc.
  unfold bind at 1. unfold logger_warning, logger_log, emit.
  change (level_enabled WARNING) with true. cbv beta iota.
  unfold bind at 1. rewrite refresh_credentials_returns. reflexivity.
Qed.

Lemma upload_loop_done turns client attempt w :
  (retries <= attempt)%Z ->
  loop turns client attempt w = (Returns false, w).
Proof.
  intros H. apply Z.ltb_ge in H.
  destruct turns; simpl; rewrite H; reflexivity.
Qed.

Lemma upload_loop_ok turns client attempt w data rest :
  (attempt < retries)%Z ->
  files w !! path = Some data ->
  upload_script w = UploadOk :: rest ->
  loop (S turns) client attempt w
  = (Returns true, after_ok path bucket key config client attempt data rest w).
Proof.
  intros H Hf Hs. apply Z.ltb_lt in H.
  simpl. rewrite H. unfold bind.
  rewrite (upload_attempt_ok _ _ _ _ _ Hf Hs). reflexivity.
Qed.

Lemma upload_loop_failed turns client attempt w data err rest :
  (attempt < retries)%Z ->
  files w !! path = Some data ->
  upload_script w = UploadRaises (ClientError err) :: rest ->
  Code err <> "ExpiredToken" ->
  loop (S turns) client attempt w
  = loop turns client (attempt + 1)%Z (after_failed path bucket key config retries client attempt err rest w).
Proof.
  intros H Hf Hs Hc. apply Z.ltb_lt in H.
  simpl. rewrite H. unfold bind.
  rewrite (upload_attempt_failed _ _ _ _ _ _ Hf Hs Hc). reflexivity.
Qed.

Lemma upload_loop_expired turns client attempt w data err rest :
  (attempt < retries)%Z ->
  files w !! path = Some data ->
  upload_script w = UploadRaises (ClientError err) :: rest ->
  Code err = "ExpiredToken" ->
  loop (S turns) client attempt w
  = loop turns (refresh_client sv (region_name client) (before_refresh path bucket key config client rest w))
      attempt (refresh_world sv (region_name client) (before_refresh path bucket key config client rest w)).
Proof.
  intros H Hf Hs Hc. apply Z.ltb_lt in H.
  simpl. rewrite H. unfold bind.
  rewrite (upload_attempt_expired _ _ _ _ _ _ Hf Hs Hc). reflexivity.
Qed.

Lemma after_failed_trace client attempt err rest w :
  trace (after_failed path bucket key config retries client attempt err rest w)
  = trace w ++
      [ call path bucket key config client;
        EvLog ERROR ("Failed to upload " ++ key ++ " (attempt "
                       ++ PyStr.str_int (attempt + 1 + 1) ++ "/" ++ PyStr.str_int retries
                       ++ "): " ++ Text err);
        EvSleep (2 ^ (attempt + 1)) ].
Proof. simpl. now rewrite <- !app_assoc. Qed.

(** A run of plain failures as long as the budget left: every one of them
    is tried, and the loop gives up. *)
Lemma upload_loop_exhausts (fails : list upload_result) :
  forall turns client attempt w data rest,
    Forall plain_failure fails ->
    Z.of_nat (length fails) = Z.max 0 (retries - attempt) ->
    length fails <= turns ->
    files w !! path = Some data ->
    upload_script w = fails ++ rest ->
    exists w' new,
      loop turns client attempt w = (Returns false, w')
      /\ trace w' = trace w ++ new
      /\ upload_calls new = length fails
      /\ length (sleeps new) = length fails
      /\ files w' = files w
      /\ s3_objects w' = s3_objects w
      /\ upload_script w' = rest.
Proof.
  induction fails as [| f fails IH]; intros turns client attempt w data rest Hall Hlen Hturns Hf Hs.
  - exists w, []. rewrite upload_loop_done by (simpl in Hlen; lia).
    rewrite app_nil_r. repeat split. exact Hs.
  - apply Forall_cons in Hall. destruct Hall as [(err & -> & Hcode) Hall].
    destruct turns as [| turns]; [simpl in Hturns; lia |].
    rewrite (upload_loop_failed turns client attempt w data err (fails ++ rest)); [| simpl length in Hlen; lia | exact Hf | exact Hs | exact Hcode].
    destruct (IH turns client (attempt + 1)%Z
                (after_failed path bucket key config retries client attempt err (fails ++ rest) w)
                data rest Hall) as (w' & new & Hrun & Htr & Hup & Hsl & Hfiles & Hobj & Hscr).
    + simpl length in Hlen. lia.
    + simpl in Hturns. lia.
    + exact Hf.
    + reflexivity.
    + exists w'. eexists. split; [exact Hrun |].
      split; [rewrite Htr, after_failed_trace, <- app_assoc; reflexivity |].
      rewrite upload_calls_app, sleeps_app, length_app, Hup, Hsl.
      repeat split; assumption.
Qed.

Lemma before_refresh_trace client rest region w :
  trace (refresh_world sv region (before_refresh path bucket key config client rest w))
  = trace w ++
      [ call path bucket key config client;
        EvLog WARNING "AWS session expired. Requesting new credentials.";
        EvInput "Enter AWS Access Key ID: ";
        EvInput "Enter AWS Secret Access Key: ";
        EvInput "Enter AWS Session Token: " ].
Proof. rewrite refresh_world_trace. simpl. now rewrite <- !app_assoc. Qed.

Lemma upload_loop_no_file turns client attempt w :
  (attempt < retries)%Z ->
  files w !! path = None ->
  loop (S turns) client attempt w
  = (Raises (if is_dir w path then IsADirectoryError path else FileNotFoundError path),
     record (call path bucket key config client) w).
Proof.
  intros H Hf. apply Z.ltb_lt in H. simpl. rewrite H.
  unfold bind, upload_attempt, try_except, s3_client_upload_file, bind, emit, open_read.
  simpl. rewrite Hf. unfold is_dir. simpl.
  destruct (bool_decide (path ∈ dirs w)); reflexivity.
Qed.

Lemma upload_loop_unanswered turns client attempt w data :
  (attempt < retries)%Z ->
  files w !! path = Some data ->
  upload_script w = [] ->
  loop (S turns) client attempt w
  = (Unfinished, record (call path bucket key config client) w).
Proof.
  intros H Hf Hs. apply Z.ltb_lt in H. simpl. rewrite H.
  unfold bind, upload_attempt, try_except, s3_client_upload_file, bind, emit, open_read.
  simpl. rewrite Hf. simpl. rewrite Hs. reflexivity.
Qed.

Lemma upload_loop_other turns client attempt w data e rest :
  (attempt < retries)%Z ->
  files w !! path = Some data ->
  upload_script w = UploadRaises e :: rest ->
  (forall err, e <> ClientError err) ->
  loop (S turns) client attempt w
  = (Raises e, set_upload_script rest (record (call path bucket key config client) w)).
Proof.
  intros H Hf Hs He. apply Z.ltb_lt in H. simpl. rewrite H.
  unfold bind, upload_attempt, try_except, s3_client_upload_file, bind, emit, open_read.
  simpl. rewrite Hf. simpl. rewrite Hs.
  destruct e; try reflexivity. now destruct (He err).
Qed.


(** When every attempt of the budget fails, lines 163 to 166 log the
    failure, remove the staged file and return. *)
Lemma upload_then_remove_exhausted client w data fails rest :
  files w !! path = Some data ->
  Forall plain_failure fails ->
  length fails = Z.to_nat retries ->
  upload_script w = fails ++ rest ->
  exists w1 new,
    upload_file_with_retry sv path bucket key client config retries w = (Returns false, w1)
    /\ trace w1 = trace w ++ new
    /\ upload_calls new = Z.to_nat retries
    /\ s3_objects w1 = s3_objects w
    /\ upload_then_remove sv path bucket key client config retries w
       = (Returns tt,
          set_files (delete path (files w1))
            (record (EvLog ERROR ("Failed to upload " ++ key ++ ". Exiting the script."))
               w1)).
Proof.
  intros Hf Hall Hlen Hs.
  destruct (upload_loop_exhausts fails (S (length (upload_script w))) client 0%Z w
              data rest Hall)
    as (w1 & new & Hrun & Htr & Hup & _ & Hfiles & Hobj & _).
  { lia. }
  { rewrite Hs, length_app. lia. }
  { exact Hf. }
  { exact Hs. }
  assert (Hretry : upload_file_with_retry sv path bucket key client config retries w
                   = (Returns false, w1)) by exact Hrun.
  exists w1, new. rewrite Hup, Hlen.
  repeat split; try assumption.
  unfold upload_then_remove, bind. rewrite Hretry. simpl.
  unfold os_remove. simpl. rewrite Hfiles, Hf. reflexivity.
Qed.

End Retry.

(** ** The executor keeps going *)

(** A task that ends, by returning or by raising, leaves its outcome in its
    future, and the tasks submitted after it are run from the world it
    leaves. *)
Lemma executor_run_cons (task : M unit) (later : list (M unit)) (w : world) :
  fst (task w) <> Unfinished ->
  executor_run (task :: later) w
  = (let* futures := executor_run later in ret (fst (task w) :: futures)) (snd (task w)).
Proof.
  intros Hends. simpl. destruct (task w) as [[[] | e |] w']; simpl in *;
    [reflexivity | reflexivity | congruence].
Qed.

Lemma executor_run_length (tasks : list (M unit)) :
  forall w futures w',
    executor_run tasks w = (Returns futures, w') -> length futures = length tasks.
Proof.
  induction tasks as [| task tasks IH]; intros w futures w' Hrun.
  - now inversion Hrun.
  - simpl in Hrun. destruct (task w) as [[[] | e |] w1]; try discriminate;
      unfold bind in Hrun;
      destruct (executor_run tasks w1) as [[fs | e' |] w2] eqn:Hrest; try discriminate;
      inversion Hrun; subst; simpl; f_equal; eapply IH; exact Hrest.
Qed.

(** ** Properties of [upload_file_with_retry] *)

Section RetryProperties.

Variable sv : services.
Variables (path bucket key : string) (config : Z) (client : s3_client).

(** C5, as the code has it.  With [retries = 3] and an upload that fails
    twice with a [ClientError] other than token expiry and then succeeds,
    [upload_file_with_retry] returns [True] after exactly three calls of
    [upload_file], having slept twice, for 2 and then 4 seconds. *)
Theorem retry_two_failures_then_success :
  forall (w : world) (data : list byte) (e1 e2 : client_error) (rest : list upload_result),
    files w !! path = Some data ->
    upload_script w
      = UploadRaises (ClientError e1) :: UploadRaises (ClientError e2) :: UploadOk :: rest ->
    Code e1 <> "ExpiredToken" ->
    Code e2 <> "ExpiredToken" ->
    exists (w' : world) (new : list event),
      upload_file_with_retry sv path bucket key client config 3 w = (Returns true, w')
      /\ trace w' = trace w ++ new
      /\ new = [ EvUploadFile client path bucket key config;
                 EvLog ERROR ("Failed to upload " ++ key ++ " (attempt 2/3): " ++ Text e1);
                 EvSleep 2;
                 EvUploadFile client path bucket key config;
                 EvLog ERROR ("Failed to upload " ++ key ++ " (attempt 3/3): " ++ Text e2);
                 EvSleep 4;
                 EvUploadFile client path bucket key config;
                 EvLog INFO (key ++ " uploaded successfully on attempt 3.") ]
      /\ upload_calls new = 3
      /\ sleeps new = [2; 4]%Z
      /\ s3_objects w' !! (bucket, key) = Some data.
Proof.
  intros w data e1 e2 rest Hf Hs H1 H2.
  unfold upload_file_with_retry. rewrite Hs. cbn [length].
  erewrite upload_loop_failed; [| lia | exact Hf | exact Hs | exact H1].
  erewrite upload_loop_failed; [| lia | exact Hf | reflexivity | exact H2].
  erewrite upload_loop_ok; [| lia | exact Hf | reflexivity].
  eexists. eexists. split; [reflexivity |].
  split; [cbn; rewrite <- !app_assoc; reflexivity |].
  split; [reflexivity |].
  split; [reflexivity |].
  split; [reflexivity |].
  cbn. apply lookup_insert_eq.
Qed.

(** C10, as the code has it.  The loop sleeps after every attempt that
    fails with a [ClientError] other than token expiry, the last one
    included: with [retries = 3] and an upload that always fails so, it sleeps three times, for 2, 4 and 8 seconds, and the
    last sleep comes after the third and last call of [upload_file]; only
    then does it return [False]. *)
Theorem retry_sleeps_after_the_last_attempt :
  forall (w : world) (data : list byte) (e1 e2 e3 : client_error) (rest : list upload_result),
    files w !! path = Some data ->
    upload_script w
      = UploadRaises (ClientError e1) :: UploadRaises (ClientError e2)
          :: UploadRaises (ClientError e3) :: rest ->
    Code e1 <> "ExpiredToken" ->
    Code e2 <> "ExpiredToken" ->
    Code e3 <> "ExpiredToken" ->
    exists (w' : world) (new : list event),
      upload_file_with_retry sv path bucket key client config 3 w = (Returns false, w')
      /\ trace w' = trace w ++ new
      /\ new = [ EvUploadFile client path bucket key config;
                 EvLog ERROR ("Failed to upload " ++ key ++ " (attempt 2/3): " ++ Text e1);
                 EvSleep 2;
                 EvUploadFile client path bucket key config;
                 EvLog ERROR ("Failed to upload " ++ key ++ " (attempt 3/3): " ++ Text e2);
                 EvSleep 4;
                 EvUploadFile client path bucket key config;
                 EvLog ERROR ("Failed to upload " ++ key ++ " (attempt 4/3): " ++ Text e3);
                 EvSleep 8 ]
      /\ upload_calls new = 3
      /\ sleeps new = [2; 4; 8]%Z
      /\ last new = Some (EvSleep 8).
Proof.
  intros w data e1 e2 e3 rest Hf Hs H1 H2 H3.
  unfold upload_file_with_retry. rewrite Hs. cbn [length].
  erewrite upload_loop_failed; [| lia | exact Hf | exact Hs | exact H1].
  erewrite upload_loop_failed; [| lia | exact Hf | reflexivity | exact H2].
  erewrite upload_loop_failed; [| lia | exact Hf | reflexivity | exact H3].
  rewrite upload_loop_done by lia.
  eexists. eexists. split; [reflexivity |].
  split; [cbn; rewrite <- !app_assoc; reflexivity |].
  repeat split.
Qed.

(** C6, as the code has it.  With an upload that fails every time with a
    [ClientError] other than token expiry, [upload_file_with_retry] calls [upload_file] exactly
    [retries] times and returns [False]; it raises nothing.  Its caller,
    the end of [transfer_object], raises nothing either: it logs the
    failure, removes the staged file and returns, and the tasks submitted
    after it are run. *)
Theorem retry_exhaustion_is_a_logged_failure :
  forall (retries : Z) (w : world) (data : list byte) (fails rest : list upload_result),
    files w !! path = Some data ->
    Forall plain_failure fails ->
    length fails = Z.to_nat retries ->
    upload_script w = fails ++ rest ->
    (exists (w1 : world) (new : list event),
        upload_file_with_retry sv path bucket key client config retries w
        = (Returns false, w1)
        /\ trace w1 = trace w ++ new
        /\ upload_calls new = Z.to_nat retries)
    /\ (exists (w2 : world) (new : list event),
          upload_then_remove sv path bucket key client config retries w = (Returns tt, w2)
          /\ trace w2 = trace w ++ new
          /\ upload_calls new = Z.to_nat retries
          /\ last new
               = Some (EvLog ERROR ("Failed to upload " ++ key ++ ". Exiting the script."))
          /\ files w2 !! path = None
          /\ forall later : list (M unit),
               executor_run
                 (upload_then_remove sv path bucket key client config retries :: later) w
               = (let* futures := executor_run later in ret (Returns tt :: futures)) w2).
Proof.
  intros retries w data fails rest Hf Hall Hlen Hs.
  destruct (upload_then_remove_exhausted sv path bucket key config retries client
              w data fails rest Hf Hall Hlen Hs)
    as (w1 & new & Hretry & Htr & Hup & _ & Hthen).
  split.
  - exists w1, new. auto.
  - eexists. eexists. split; [exact Hthen |].
    split; [simpl; rewrite Htr, <- app_assoc; reflexivity |].
    split; [rewrite upload_calls_app, Hup; apply Nat.add_0_r |].
    split; [apply last_snoc |].
    split; [simpl; apply lookup_delete_eq |].
    intros later. rewrite executor_run_cons by (rewrite Hthen; discriminate).
    now rewrite Hthen.
Qed.

End RetryProperties.

Lemma retry_two_failures_then_success_witness :
  exists (w' : world) (new : list event),
    upload_file_with_retry (Double.store [] []) "/tmp/bucket/a.txt" "bucket" "a.txt"
      Double.client 1048576 3
      (Double.staged [Double.failure "500"; Double.failure "503"; UploadOk])
    = (Returns true, w')
    /\ trace w' = new
    /\ upload_calls new = 3
    /\ sleeps new = [2; 4]%Z.
Proof.
  destruct (retry_two_failures_then_success (Double.store [] [])
              "/tmp/bucket/a.txt" "bucket" "a.txt" 1048576 Double.client
              (Double.staged [Double.failure "500"; Double.failure "503"; UploadOk])
              [x68; x69] {| Code := "500"; Text := "refused" |}
              {| Code := "503"; Text := "refused" |} [])
    as (w' & new & Hrun & Htrace & _ & Hcalls & Hsleeps & _).
  - reflexivity.
  - reflexivity.
  - discriminate.
  - discriminate.
  - exists w', new. auto.
Defined.

Lemma retry_sleeps_after_the_last_attempt_witness :
  exists (w' : world) (new : list event),
    upload_file_with_retry (Double.store [] []) "/tmp/bucket/a.txt" "bucket" "a.txt"
      Double.client 1048576 3
      (Double.staged [Double.failure "500"; Double.failure "500"; Double.failure "500"])
    = (Returns false, w')
    /\ trace w' = new
    /\ sleeps new = [2; 4; 8]%Z
    /\ last new = Some (EvSleep 8).
Proof.
  destruct (retry_sleeps_after_the_last_attempt (Double.store [] [])
              "/tmp/bucket/a.txt" "bucket" "a.txt" 1048576 Double.client
              (Double.staged [Double.failure "500"; Double.failure "500"; Double.failure "500"])
              [x68; x69] {| Code := "500"; Text := "refused" |}
              {| Code := "500"; Text := "refused" |}
              {| Code := "500"; Text := "refused" |} [])
    as (w' & new & Hrun & Htrace & _ & _ & Hsleeps & Hlast).
  - reflexivity.
  - reflexivity.
  - discriminate.
  - discriminate.
  - discriminate.
  - exists w', new. auto.
Defined.

Lemma plain_failure_double code :
  code <> "ExpiredToken" -> plain_failure (Double.failure code).
Proof. intros H. eexists. split; [reflexivity | exact H]. Qed.

Lemma retry_exhaustion_is_a_logged_failure_witness :
  exists (w2 : world) (new : list event),
    upload_then_remove (Double.store [] []) "/tmp/bucket/a.txt" "bucket" "a.txt"
      Double.client 1048576 2
      (Double.staged [Double.failure "500"; Double.failure "503"; UploadOk])
    = (Returns tt, w2)
    /\ trace w2 = new
    /\ upload_calls new = 2
    /\ files w2 !! "/tmp/bucket/a.txt" = None.
Proof.
  destruct (retry_exhaustion_is_a_logged_failure (Double.store [] [])
              "/tmp/bucket/a.txt" "bucket" "a.txt" 1048576 Double.client 2
              (Double.staged [Double.failure "500"; Double.failure "503"; UploadOk])
              [x68; x69] [Double.failure "500"; Double.failure "503"] [UploadOk])
    as (_ & w2 & new & Hrun & Htrace & Hcalls & _ & Hgone & _).
  - reflexivity.
  - repeat constructor; apply plain_failure_double; discriminate.
  - reflexivity.
  - reflexivity.
  - exists w2, new. auto.
Defined.


(** ** The local filesystem and the stores, call by call *)

Section Calls.

Variable sv : services.

Lemma os_makedirs_frame name w :
  trace (snd (os_makedirs name w)) = trace w
  /\ files (snd (os_makedirs name w)) = files w
  /\ s3_objects (snd (os_makedirs name w)) = s3_objects w
  /\ upload_script (snd (os_makedirs name w)) = upload_script w.
Proof.
  unfold os_makedirs.
  destruct (negb (PyStr.nonempty name)); [repeat split |].
  destruct (List.find (is_file w) (PyStr.path_components name)); repeat split.
Qed.

Lemma os_makedirs_returns name w w1 :
  os_makedirs name w = (Returns tt, w1) ->
  w1 = set_dirs (list_to_set (PyStr.path_components name) ∪ dirs w) w.
Proof.
  unfold os_makedirs.
  destruct (negb (PyStr.nonempty name)); [discriminate |].
  destruct (List.find (is_file w) (PyStr.path_components name)); [discriminate |].
  now intros [= <-].
Qed.

Lemma open_write_returns path data w w2 :
  open_write path data w = (Returns tt, w2) ->
  w2 = set_files (<[path := data]> (files w)) w.
Proof.
  unfold open_write.
  destruct (PyStr.endswith PyStr.slash path || is_dir w path); [discriminate |].
  destruct (negb (parent_exists w path)); [discriminate |].
  now intros [= <-].
Qed.

Lemma calculate_md5_staged path data w :
  files w !! path = Some data ->
  calculate_md5 sv path w = (Returns (file_md5 (hashlib_md5 sv) data), w).
Proof.
  intros Hf. unfold calculate_md5, bind, open_read. now rewrite Hf.
Qed.

Lemma s3_client_head_object_world bucket key w :
  snd (s3_client_head_object sv bucket key w) = record (EvHeadObject bucket key) w.
Proof.
  unfold s3_client_head_object, bind, emit, gets. simpl.
  destruct (s3_head_object_fault sv bucket key); [reflexivity |].
  simpl. destruct (s3_objects w !! (bucket, key)); reflexivity.
Qed.

End Calls.

(** ** The retry loop only adds to the trace, and starts with a call *)

Section RetryTrace.

Variable sv : services.
Variables (path bucket key : string) (config retries : Z).

Lemma upload_loop_trace (turns : nat) :
  forall client attempt w,
    exists new,
      trace (snd (upload_loop sv turns path bucket key config retries client attempt w))
      = trace w ++ new
      /\ ((attempt < retries)%Z -> turns <> 0 ->
          exists later, new = EvUploadFile client path bucket key config :: later).
Proof.
  induction turns as [| turns IH]; intros client attempt w.
  - exists []. rewrite app_nil_r. split; [| congruence].
    simpl. destruct (attempt <? retries)%Z; reflexivity.
  - destruct (Z.lt_ge_cases attempt retries) as [Hlt | Hge].
    2:{ rewrite upload_loop_done by exact Hge. exists []. rewrite app_nil_r.
        split; [reflexivity | lia]. }
    destruct (files w !! path) as [data |] eqn:Hf.
    2:{ rewrite (upload_loop_no_file sv path bucket key config retries turns client
                   attempt w Hlt Hf).
        eexists. split; [reflexivity | eauto]. }
    destruct (upload_script w) as [| [| e] rest] eqn:Hs.
    + rewrite (upload_loop_unanswered sv path bucket key config retries turns client
                 attempt w data Hlt Hf Hs).
      eexists. split; [reflexivity | eauto].
    + rewrite (upload_loop_ok sv path bucket key config retries turns client
                 attempt w data rest Hlt Hf Hs).
      eexists. split; [simpl; rewrite <- app_assoc; reflexivity | eauto].
    + destruct e as [err | | | | | | | |].
      2-9: (erewrite (upload_loop_other sv path bucket key config retries turns client
                        attempt w);
            [| exact Hlt | exact Hf | exact Hs | discriminate];
            eexists; split; [reflexivity | eauto]).
      destruct (String.eqb (Code err) "ExpiredToken") eqn:Hc.
      * apply String.eqb_eq in Hc.
        rewrite (upload_loop_expired sv path bucket key config retries turns client
                   attempt w data err rest Hlt Hf Hs Hc).
        edestruct IH as (new & -> & _).
        eexists. split; [rewrite before_refresh_trace, <- app_assoc; reflexivity | eauto].
      * apply String.eqb_neq in Hc.
        rewrite (upload_loop_failed sv path bucket key config retries turns client
                   attempt w data err rest Hlt Hf Hs Hc).
        edestruct IH as (new & -> & _).
        eexists. split; [rewrite after_failed_trace, <- app_assoc; reflexivity | eauto].
Qed.

(** Lines 163 to 166 start with a call of [upload_file] whenever the
    budget of attempts is positive. *)
Lemma upload_then_remove_calls_first client w :
  (0 < retries)%Z ->
  exists later,
    trace (snd (upload_then_remove sv path bucket key client config retries w))
    = trace w ++ EvUploadFile client path bucket key config :: later.
Proof.
  intros Hpos.
  destruct (upload_loop_trace (S (length (upload_script w))) client 0%Z w)
    as (new & Hnew & Hfirst).
  destruct (Hfirst Hpos ltac:(discriminate)) as (later & ->).
  unfold upload_then_remove, bind, upload_file_with_retry.
  destruct (upload_loop sv (S (length (upload_script w))) path bucket key config
              retries client 0%Z w) as [[b | e |] w1]; simpl in Hnew |- *.
  - destruct b; simpl.
    + unfold os_remove. destruct (files w1 !! path); simpl; rewrite Hnew; eauto.
    + unfold os_remove. simpl. destruct (files w1 !! path); simpl; rewrite Hnew.
      * eexists. rewrite <- app_assoc. reflexivity.
      * eexists. rewrite <- app_assoc. reflexivity.
  - eauto.
  - eauto.
Qed.

End RetryTrace.

(** ** One object through [transfer_object] *)

Section Transfer.

Variable sv : services.
Variables (object : swift_entry) (client : s3_client) (config : Z).
Variables (tempDirectory openStackContainer s3Bucket : string) (retries : Z).

Local Abbreviation objectName := (object_name object).
Local Abbreviation tempFilePath := (PyStr.path_join tempDirectory (object_name object)).
Local Abbreviation localMD5 := (fun data => file_md5 (hashlib_md5 sv) data).
Local Abbreviation run :=
  (transfer_object sv object client config tempDirectory openStackContainer s3Bucket retries).

(** A regular object whose download and staging succeed reaches the probe
    of the destination with its bytes in the staged file. *)
Lemma transfer_object_staged w w1 w2 data :
  PyStr.endswith PyStr.slash objectName = false ->
  os_makedirs (PyStr.path_dirname tempFilePath) w = (Returns tt, w1) ->
  swift_get_object sv openStackContainer objectName = Some data ->
  open_write tempFilePath data (record (EvGetObject openStackContainer objectName) w1)
  = (Returns tt, w2) ->
  files w2 !! tempFilePath = Some data
  /\ trace w2 = trace w ++ [EvGetObject openStackContainer objectName]
  /\ s3_objects w2 = s3_objects w
  /\ upload_script w2 = upload_script w
  /\ run w
     = (let* returned := probe_destination sv tempFilePath s3Bucket objectName
                           (localMD5 data) in
        if returned then ret tt
        else upload_then_remove sv tempFilePath s3Bucket objectName client config retries)
         w2.
Proof.
  intros Hreg Hmk Hget Hopen.
  pose proof (os_makedirs_frame (PyStr.path_dirname tempFilePath) w) as Hframe.
  rewrite Hmk in Hframe. simpl in Hframe. destruct Hframe as (Ht & Hfi & Ho & Hsc).
  pose proof (open_write_returns _ _ _ _ Hopen) as ->.
  assert (Hstaged :
            files (set_files (<[tempFilePath := data]>
                     (files (record (EvGetObject openStackContainer objectName) w1)))
                     (record (EvGetObject openStackContainer objectName) w1))
              !! tempFilePath = Some data) by (simpl; apply lookup_insert_eq).
  split; [exact Hstaged |].
  split; [simpl; now rewrite Ht |].
  split; [exact Ho |]. split; [exact Hsc |].
  unfold transfer_object. cbv zeta. unfold bind at 1. rewrite Hmk, Hreg.
  unfold bind at 1. unfold swift_connection_get_object, bind at 1, emit.
  rewrite Hget. unfold ret at 1. unfold bind at 1. rewrite Hopen.
  unfold bind at 1. unfold logger_debug, logger_log.
  change (level_enabled DEBUG) with false. cbv beta iota.
  unfold bind at 1, ret at 1. cbv beta iota.
  rewrite (calculate_md5_staged sv _ _ _ Hstaged). reflexivity.
Qed.

Lemma probe_destination_absent path localDigest w err w3 :
  s3_client_head_object sv s3Bucket objectName w = (Raises (ClientError err), w3) ->
  Code err = "404" ->
  probe_destination sv path s3Bucket objectName localDigest w
  = (Returns false,
     record (EvLog INFO (objectName ++ " does not exist in S3. Uploading "
                           ++ objectName ++ "...")) w3).
Proof.
  intros Hhead Hcode. apply String.eqb_eq in Hcode.
  unfold probe_destination, try_except, bind at 1. rewrite Hhead.
  rewrite Hcode. reflexivity.
Qed.

Lemma probe_destination_failed path localDigest w err w3 :
  s3_client_head_object sv s3Bucket objectName w = (Raises (ClientError err), w3) ->
  Code err <> "404" ->
  probe_destination sv path s3Bucket objectName localDigest w
  = (Raises (ClientError err),
     record (EvLog ERROR ("Failed to access object " ++ objectName ++ ": " ++ Text err)) w3).
Proof.
  intros Hhead Hcode. apply String.eqb_neq in Hcode.
  unfold probe_destination, try_except, bind at 1. rewrite Hhead.
  rewrite Hcode. reflexivity.
Qed.

Lemma probe_destination_changed path localDigest w etag w3 :
  s3_client_head_object sv s3Bucket objectName w = (Returns etag, w3) ->
  PyStr.strip PyStr.dquote etag <> localDigest ->
  probe_destination sv path s3Bucket objectName localDigest w
  = (Returns false,
     record (EvLog INFO (objectName ++ " exists but has changed. Overwriting "
                           ++ objectName ++ "...")) w3).
Proof.
  intros Hhead Hne.
  assert (Heq : String.eqb localDigest (PyStr.strip PyStr.dquote etag) = false)
    by (apply String.eqb_neq; congruence).
  unfold probe_destination, try_except, bind at 1. rewrite Hhead.
  rewrite Heq. reflexivity.
Qed.

Lemma probe_destination_up_to_date path localDigest w etag w3 data :
  s3_client_head_object sv s3Bucket objectName w = (Returns etag, w3) ->
  PyStr.strip PyStr.dquote etag = localDigest ->
  files w !! path = Some data ->
  probe_destination sv path s3Bucket objectName localDigest w
  = (Returns true,
     set_files (delete path (files w))
       (record (EvLog INFO (objectName ++ " is up to date in S3. Skipping upload."))
          (record (EvHeadObject s3Bucket objectName) w))).
Proof.
  intros Hhead Heq Hf.
  pose proof (s3_client_head_object_world sv s3Bucket objectName w) as Hw.
  rewrite Hhead in Hw. simpl in Hw. subst w3.
  assert (Hb : String.eqb localDigest (PyStr.strip PyStr.dquote etag) = true)
    by (apply String.eqb_eq; congruence).
  unfold probe_destination, try_except, bind at 1. rewrite Hhead.
  rewrite Hb. unfold bind, logger_info, logger_log, emit, os_remove. simpl.
  rewrite Hf. reflexivity.
Qed.

End Transfer.

(** ** Properties of [transfer_object] *)

Section TransferProperties.

Variable sv : services.
Variables (object : swift_entry) (client : s3_client) (config : Z).
Variables (tempDirectory openStackContainer s3Bucket : string) (retries : Z).

Local Abbreviation objectName := (object_name object).
Local Abbreviation tempFilePath := (PyStr.path_join tempDirectory (object_name object)).
Local Abbreviation run :=
  (transfer_object sv object client config tempDirectory openStackContainer s3Bucket retries).

(** C4, as the code has it.  For an object whose name ends with ["/"],
    [transfer_object] never calls [get_object] (nor [upload_file]).  It
    first makes the staging directory of the name: when that raises, the
    error leaves [transfer_object] and nothing is put; once the directory
    is there and the bucket takes the request, it puts a zero-byte object
    under the same key, logs it and returns. *)
Theorem directory_marker_is_put_without_download :
  forall w : world,
    PyStr.endswith PyStr.slash objectName = true ->
    (exists new,
        trace (snd (run w)) = trace w ++ new
        /\ List.filter is_download new = []
        /\ upload_calls new = 0)
    /\ (forall w1,
          os_makedirs (PyStr.path_dirname tempFilePath) w = (Returns tt, w1) ->
          s3_put_object_fault sv s3Bucket objectName = None ->
          fst (run w) = Returns tt
          /\ trace (snd (run w))
             = trace w ++
                 [ EvPutObject s3Bucket objectName;
                   EvLog INFO ("Creating directory structure " ++ objectName ++ " in S3.") ]
          /\ s3_objects (snd (run w)) = <[(s3Bucket, objectName) := []]> (s3_objects w)
          /\ s3_objects (snd (run w)) !! (s3Bucket, objectName) = Some []
          /\ files (snd (run w)) = files w)
    /\ (forall e w1,
          os_makedirs (PyStr.path_dirname tempFilePath) w = (Raises e, w1) ->
          fst (run w) = Raises e
          /\ trace (snd (run w)) = trace w
          /\ s3_objects (snd (run w)) = s3_objects w
          /\ files (snd (run w)) = files w).
Proof.
  intros w Hmarker.
  pose proof (os_makedirs_frame (PyStr.path_dirname tempFilePath) w) as (Ht & Hfi & Ho & _).
  destruct (os_makedirs (PyStr.path_dirname tempFilePath) w) as [[[] | e |] w1] eqn:Hmk;
    simpl in Ht, Hfi, Ho.
  - assert (Hrun : run w
                   = (let* _ := s3_client_put_object sv s3Bucket objectName in
                      logger_info ("Creating directory structure " ++ objectName
                                     ++ " in S3.")) w1).
    { unfold transfer_object. cbv zeta. unfold bind at 1. now rewrite Hmk, Hmarker. }
    rewrite Hrun. unfold s3_client_put_object, bind, emit.
    split; [| split].
    + destruct (s3_put_object_fault sv s3Bucket objectName).
      * exists [EvPutObject s3Bucket objectName]. simpl. now rewrite Ht.
      * eexists [_; _]. simpl. rewrite Ht, <- app_assoc. repeat split.
    + intros w1' [= <-] Hput. rewrite Hput. simpl.
      rewrite Ht, Ho, Hfi, <- app_assoc.
      repeat split. apply lookup_insert_eq.
    + intros e w1' [=].
  - assert (Hrun : run w = (Raises e, w1)).
    { unfold transfer_object. cbv zeta. unfold bind at 1. now rewrite Hmk. }
    rewrite Hrun. simpl. split; [| split].
    + exists []. now rewrite app_nil_r, Ht.
    + intros w1' [=].
    + intros e' w1' [= <- <-]. auto.
  - assert (Hrun : run w = (Unfinished, w1)).
    { unfold transfer_object. cbv zeta. unfold bind at 1. now rewrite Hmk. }
    rewrite Hrun. simpl. split; [| split].
    + exists []. now rewrite app_nil_r, Ht.
    + intros w1' [=].
    + intros e' w1' [=].
Qed.

(** C3.  For a regular object that was downloaded and staged: when the
    destination answers 404 to the probe, control passes to the upload and
    [upload_file] is called; when the ETag of the destination, without its
    quotes, equals the local digest, the object is logged as up to date,
    the staged file is removed and no call of [upload_file] is made; when
    the two differ, control passes to the upload and [upload_file] is
    called. *)
Theorem destination_probe_decides_upload :
  forall (w w1 w2 : world) (data : list byte),
    PyStr.endswith PyStr.slash objectName = false ->
    os_makedirs (PyStr.path_dirname tempFilePath) w = (Returns tt, w1) ->
    swift_get_object sv openStackContainer objectName = Some data ->
    open_write tempFilePath data (record (EvGetObject openStackContainer objectName) w1)
    = (Returns tt, w2) ->
    (0 < retries)%Z ->
    (forall err w3,
        s3_client_head_object sv s3Bucket objectName w2 = (Raises (ClientError err), w3) ->
        Code err = "404" ->
        run w
        = upload_then_remove sv tempFilePath s3Bucket objectName client config retries
            (record (EvLog INFO (objectName ++ " does not exist in S3. Uploading "
                                   ++ objectName ++ "...")) w3)
        /\ exists later,
            trace (snd (run w))
            = trace w ++
                [ EvGetObject openStackContainer objectName;
                  EvHeadObject s3Bucket objectName;
                  EvLog INFO (objectName ++ " does not exist in S3. Uploading "
                                ++ objectName ++ "...");
                  EvUploadFile client tempFilePath s3Bucket objectName config ] ++ later)
    /\ (forall etag w3,
          s3_client_head_object sv s3Bucket objectName w2 = (Returns etag, w3) ->
          PyStr.strip PyStr.dquote etag = file_md5 (hashlib_md5 sv) data ->
          exists w' new,
            run w = (Returns tt, w')
            /\ trace w' = trace w ++ new
            /\ new = [ EvGetObject openStackContainer objectName;
                       EvHeadObject s3Bucket objectName;
                       EvLog INFO (objectName ++ " is up to date in S3. Skipping upload.") ]
            /\ upload_calls new = 0
            /\ files w' !! tempFilePath = None
            /\ s3_objects w' = s3_objects w)
    /\ (forall etag w3,
          s3_client_head_object sv s3Bucket objectName w2 = (Returns etag, w3) ->
          PyStr.strip PyStr.dquote etag <> file_md5 (hashlib_md5 sv) data ->
          run w
          = upload_then_remove sv tempFilePath s3Bucket objectName client config retries
              (record (EvLog INFO (objectName ++ " exists but has changed. Overwriting "
                                     ++ objectName ++ "...")) w3)
          /\ exists later,
              trace (snd (run w))
              = trace w ++
                  [ EvGetObject openStackContainer objectName;
                    EvHeadObject s3Bucket objectName;
                    EvLog INFO (objectName ++ " exists but has changed. Overwriting "
                                  ++ objectName ++ "...");
                    EvUploadFile client tempFilePath s3Bucket objectName config ] ++ later).
Proof.
  intros w w1 w2 data Hreg Hmk Hget Hopen Hpos.
  destruct (transfer_object_staged sv object client config tempDirectory
              openStackContainer s3Bucket retries w w1 w2 data Hreg Hmk Hget Hopen)
    as (Hstaged & Htrace & Hobj & _ & Hrun).
  assert (Hworld : forall r w3,
             s3_client_head_object sv s3Bucket objectName w2 = (r, w3) ->
             trace w3 = trace w ++ [EvGetObject openStackContainer objectName;
                                    EvHeadObject s3Bucket objectName]).
  { intros r w3 Hhead.
    pose proof (s3_client_head_object_world sv s3Bucket objectName w2) as Hw.
    rewrite Hhead in Hw. simpl in Hw. subst w3. simpl.
    now rewrite Htrace, <- app_assoc. }
  split; [| split].
  - intros err w3 Hhead Hcode.
    assert (Hgo : run w
                  = upload_then_remove sv tempFilePath s3Bucket objectName client config
                      retries
                      (record (EvLog INFO (objectName ++ " does not exist in S3. Uploading "
                                             ++ objectName ++ "...")) w3)).
    { rewrite Hrun. unfold bind at 1.
      now rewrite (probe_destination_absent sv object s3Bucket _ _ _ _ _ Hhead Hcode). }
    split; [exact Hgo |].
    rewrite Hgo.
    destruct (upload_then_remove_calls_first sv tempFilePath s3Bucket objectName config
                retries client
                (record (EvLog INFO (objectName ++ " does not exist in S3. Uploading "
                                       ++ objectName ++ "...")) w3) Hpos)
      as (later & ->).
    exists later. simpl. rewrite (Hworld _ _ Hhead), <- !app_assoc. reflexivity.
  - intros etag w3 Hhead Heq.
    eexists. eexists. split.
    + rewrite Hrun. unfold bind at 1.
      rewrite (probe_destination_up_to_date sv object s3Bucket _ _ _ _ _ _
                 Hhead Heq Hstaged).
      reflexivity.
    + split; [simpl; rewrite Htrace, <- !app_assoc; reflexivity |].
      split; [reflexivity |]. split; [reflexivity |].
      split; [simpl; apply lookup_delete_eq | exact Hobj].
  - intros etag w3 Hhead Hne.
    assert (Hgo : run w
                  = upload_then_remove sv tempFilePath s3Bucket objectName client config
                      retries
                      (record (EvLog INFO (objectName ++ " exists but has changed. Overwriting "
                                             ++ objectName ++ "...")) w3)).
    { rewrite Hrun. unfold bind at 1.
      now rewrite (probe_destination_changed sv object s3Bucket _ _ _ _ _ Hhead Hne). }
    split; [exact Hgo |].
    rewrite Hgo.
    destruct (upload_then_remove_calls_first sv tempFilePath s3Bucket objectName config
                retries client
                (record (EvLog INFO (objectName ++ " exists but has changed. Overwriting "
                                       ++ objectName ++ "...")) w3) Hpos)
      as (later & ->).
    exists later. simpl. rewrite (Hworld _ _ Hhead), <- !app_assoc. reflexivity.
Qed.

End TransferProperties.

Lemma directory_marker_is_put_without_download_witness :
  let run :=
    transfer_object (Double.store [("dir/", None)] []) {| object_name := "dir/" |}
      Double.client 1048576 "/tmp/bucket" "container" "bucket" 3 Double.empty_world in
  fst run = Returns tt
  /\ s3_objects (snd run) !! ("bucket", "dir/") = Some []
  /\ List.filter is_download (trace (snd run)) = [].
Proof.
  destruct (directory_marker_is_put_without_download
              (Double.store [("dir/", None)] []) {| object_name := "dir/" |}
              Double.client 1048576 "/tmp/bucket" "container" "bucket" 3
              Double.empty_world eq_refl)
    as [(new & Htrace & Hdownload & _) [Hput _]].
  destruct (Hput (snd (os_makedirs "/tmp/bucket/dir" Double.empty_world)) eq_refl eq_refl)
    as (Hret & _ & _ & Hzero & _).
  cbv zeta. rewrite Htrace. auto.
Defined.

(** C4 fails on this input.  The name [x] is a regular file of the staging
    area (a staged file a failed probe left): for the marker [x/],
    [os.makedirs] raises, [transfer_object] raises with it, and no object
    is put. *)
Lemma marker_is_not_put_when_staging_fails :
  let w := set_files {[ "/tmp/bucket/x" := [x68; x69] ]}
             (set_dirs {[ "/tmp"; "/tmp/bucket" ]} Double.empty_world) in
  let run :=
    transfer_object (Double.store [("x/", None)] []) {| object_name := "x/" |}
      Double.client 1048576 "/tmp/bucket" "container" "bucket" 3 w in
  PyStr.endswith PyStr.slash "x/" = true
  /\ fst run = Raises (FileExistsError "/tmp/bucket/x")
  /\ s3_objects (snd run) !! ("bucket", "x/") = None
  /\ trace (snd run) = [].
Proof. vm_compute. repeat split. Qed.

Lemma destination_probe_decides_upload_witness :
  let w :=
    set_s3_objects {[ ("bucket", "a.txt") := [x68; x69] ]} Double.empty_world in
  exists w',
    transfer_object (Double.store [("a.txt", Some [x68; x69])] [])
      {| object_name := "a.txt" |} Double.client 1048576 "/tmp/bucket" "container"
      "bucket" 3 w
    = (Returns tt, w')
    /\ upload_calls (trace w') = 0
    /\ files w' !! "/tmp/bucket/a.txt" = None.
Proof.
  intros w.
  pose (sv := Double.store [("a.txt", Some [x68; x69])] []).
  pose (w1 := snd (os_makedirs "/tmp/bucket" w)).
  pose (w2 := snd (open_write "/tmp/bucket/a.txt" [x68; x69]
                     (record (EvGetObject "container" "a.txt") w1))).
  destruct (destination_probe_decides_upload sv {| object_name := "a.txt" |}
              Double.client 1048576 "/tmp/bucket" "container" "bucket" 3
              w w1 w2 [x68; x69])
    as (_ & Hequal & _).
  - reflexivity.
  - reflexivity.
  - reflexivity.
  - reflexivity.
  - lia.
  - destruct (Hequal (s3_etag sv [x68; x69])
                (record (EvHeadObject "bucket" "a.txt") w2))
      as (w' & new & Hrun & Htrace & _ & Hcalls & Hgone & _).
    + reflexivity.
    + reflexivity.
    + exists w'. rewrite Htrace. auto.
Defined.

(** ** Failures of one object *)

Section TransferFailures.

Variable sv : services.
Variables (object : swift_entry) (client : s3_client) (config : Z).
Variables (tempDirectory openStackContainer s3Bucket : string) (retries : Z).

Local Abbreviation objectName := (object_name object).
Local Abbreviation tempFilePath := (PyStr.path_join tempDirectory (object_name object)).
Local Abbreviation run :=
  (transfer_object sv object client config tempDirectory openStackContainer s3Bucket retries).

(** A probe that returns [False] has touched neither the files, nor the
    bucket, nor the script. *)
Lemma probe_destination_false_frame path localDigest w w3 :
  probe_destination sv path s3Bucket objectName localDigest w = (Returns false, w3) ->
  files w3 = files w
  /\ s3_objects w3 = s3_objects w
  /\ upload_script w3 = upload_script w.
Proof.
  unfold probe_destination, try_except, bind at 1.
  pose proof (s3_client_head_object_world sv s3Bucket objectName w) as Hw.
  destruct (s3_client_head_object sv s3Bucket objectName w) as [[etag | e |] w'];
    simpl in Hw; subst w'.
  - destruct (String.eqb localDigest (PyStr.strip PyStr.dquote etag)).
    + unfold bind, logger_info, logger_log, emit, os_remove. simpl.
      destruct (files w !! path); simpl; unfold is_dir; simpl;
        [intros H; discriminate H |].
      destruct (bool_decide (path ∈ dirs w)); intros H; discriminate H.
    + intros [= <-]. repeat split.
  - destruct e as [err | | | | | | | |]; try discriminate.
    destruct (String.eqb (Code err) "404"); [| discriminate].
    intros [= <-]. repeat split.
  - discriminate.
Qed.

Lemma transfer_object_source_read_failure w w1 :
  PyStr.endswith PyStr.slash objectName = false ->
  os_makedirs (PyStr.path_dirname tempFilePath) w = (Returns tt, w1) ->
  swift_get_object sv openStackContainer objectName = None ->
  run w = (Raises (ClientException "Object GET failed"),
           record (EvGetObject openStackContainer objectName) w1).
Proof.
  intros Hreg Hmk Hget.
  unfold transfer_object. cbv zeta. unfold bind at 1. rewrite Hmk, Hreg.
  unfold bind at 1. unfold swift_connection_get_object, bind at 1, emit.
  now rewrite Hget.
Qed.

Lemma transfer_object_probe_failure w w1 w2 data err w3 :
  PyStr.endswith PyStr.slash objectName = false ->
  os_makedirs (PyStr.path_dirname tempFilePath) w = (Returns tt, w1) ->
  swift_get_object sv openStackContainer objectName = Some data ->
  open_write tempFilePath data (record (EvGetObject openStackContainer objectName) w1)
  = (Returns tt, w2) ->
  s3_client_head_object sv s3Bucket objectName w2 = (Raises (ClientError err), w3) ->
  Code err <> "404" ->
  run w = (Raises (ClientError err),
           record (EvLog ERROR ("Failed to access object " ++ objectName ++ ": "
                                  ++ Text err)) w3)
  /\ files w3 !! tempFilePath = Some data.
Proof.
  intros Hreg Hmk Hget Hopen Hhead Hcode.
  destruct (transfer_object_staged sv object client config tempDirectory
              openStackContainer s3Bucket retries w w1 w2 data Hreg Hmk Hget Hopen)
    as (Hstaged & _ & _ & _ & Hrun).
  split.
  - rewrite Hrun. unfold bind at 1.
    now rewrite (probe_destination_failed sv object s3Bucket _ _ _ _ _ Hhead Hcode).
  - pose proof (s3_client_head_object_world sv s3Bucket objectName w2) as Hw.
    rewrite Hhead in Hw. simpl in Hw. subst w3. exact Hstaged.
Qed.


End TransferFailures.

(** C1, on an input where the code does not keep it.  The probe of the
    destination fails with code 500: [transfer_object] raises the error,
    and the staged file of the object is still on the disk. *)
Theorem probe_failure_leaves_the_staged_file :
  let run :=
    transfer_object
      (Double.store [("a.txt", Some [x68; x69])] [("a.txt", Double.server_error)])
      {| object_name := "a.txt" |} Double.client 1048576 "/tmp/bucket" "container"
      "bucket" 3 Double.empty_world in
  fst run = Raises (ClientError Double.server_error)
  /\ files (snd run) !! "/tmp/bucket/a.txt" = Some [x68; x69].
Proof. vm_compute. split; reflexivity. Qed.



(** ** Paths *)

Lemma string_append_nil_r (s : string) : (s ++ "")%string = s.
Proof.
  induction s as [| a s IH]; [reflexivity |].
  change (String a (s ++ "")%string = String a s). now rewrite IH.
Qed.

Lemma string_append_assoc (a b c : string) :
  ((a ++ b) ++ c)%string = (a ++ (b ++ c))%string.
Proof.
  induction a as [| x a IH]; [reflexivity |].
  change (String x ((a ++ b) ++ c)%string = String x (a ++ (b ++ c))%string).
  now rewrite IH.
Qed.

Lemma prefixes_at_sep_whole (rest : string) :
  forall done, In (done ++ rest)%string (PyStr.prefixes_at_sep done rest).
Proof.
  induction rest as [| a rest IH]; intros done; simpl.
  - left. symmetry. apply string_append_nil_r.
  - apply in_or_app. right.
    replace (done ++ String a rest)%string
      with ((done ++ String a EmptyString) ++ rest)%string
      by (rewrite string_append_assoc; reflexivity).
    apply IH.
Qed.

(** [os.makedirs(p)] makes [p] itself. *)
Lemma path_components_self (p : string) :
  PyStr.nonempty p = true -> In p (PyStr.path_components p).
Proof.
  intros Hne. unfold PyStr.path_components.
  apply List.filter_In. split; [| exact Hne].
  apply (prefixes_at_sep_whole p EmptyString).
Qed.

Lemma os_makedirs_record name e w :
  os_makedirs name (record e w)
  = (fst (os_makedirs name w), record e (snd (os_makedirs name w))).
Proof.
  unfold os_makedirs.
  destruct (negb (PyStr.nonempty name)); [reflexivity |].
  change (is_file (record e w)) with (is_file w).
  destruct (List.find (is_file w) (PyStr.path_components name)); reflexivity.
Qed.

Lemma os_makedirs_makes name w w1 :
  os_makedirs name w = (Returns tt, w1) -> name ∈ dirs w1.
Proof.
  intros Hmk. pose proof (os_makedirs_returns _ _ _ Hmk) as ->.
  unfold os_makedirs in Hmk.
  destruct (PyStr.nonempty name) eqn:Hne; [| discriminate].
  simpl. apply elem_of_union_l, elem_of_list_to_set, list_elem_of_In.
  now apply path_components_self.
Qed.

(** ** Properties of [main] *)

Section MainProperties.

Variable sv : services.
Variables (openStackContainer s3Bucket regionName : string).
Variables (maxWorkers bandwidthLimitMb : Z).

Lemma ensure_bucket_exists_ok w :
  s3_head_bucket sv s3Bucket = None ->
  ensure_bucket_exists sv s3Bucket w = (Returns tt, record (EvHeadBucket s3Bucket) w).
Proof.
  intros Hb. unfold ensure_bucket_exists, try_except, s3_client_head_bucket, bind, emit.
  now rewrite Hb.
Qed.

Lemma list_openstack_objects_empty fuel w :
  swift_get_container sv openStackContainer None = inr [] ->
  list_openstack_objects sv (S fuel) openStackContainer w
  = (Returns [], record (EvGetContainer openStackContainer None) w).
Proof.
  intros Hpage.
  unfold list_openstack_objects, bind at 1. simpl list_openstack_pages.
  unfold bind at 1, swift_connection_get_container, bind at 1, emit.
  now rewrite Hpage.
Qed.

Lemma transfer_config_ok (megabytes : Z) (w : world) :
  (0 < megabytes)%Z ->
  transfer_config (megabytes * 1024 * 1024) w
  = (Returns (megabytes * 1024 * 1024)%Z, w).
Proof.
  intros Hpos. unfold transfer_config.
  destruct (Z.leb_spec (megabytes * 1024 * 1024) 0) as [Hle | Hgt]; [lia | reflexivity].
Qed.


End MainProperties.


Lemma os_makedirs_ends name w : fst (os_makedirs name w) <> Unfinished.
Proof.
  unfold os_makedirs.
  destruct (negb (PyStr.nonempty name)); [discriminate |].
  destruct (List.find (is_file w) (PyStr.path_components name)); discriminate.
Qed.

(** ** One object of a batch, first and second time *)

Section BatchSteps.

Variable sv : services.
Variables (client : s3_client) (config : Z).
Variables (tempDirectory openStackContainer s3Bucket : string) (retries : Z).

Local Abbreviation run := (fun obj =>
  transfer_object sv obj client config tempDirectory openStackContainer s3Bucket retries).
Local Abbreviation staged_at := (fun obj => PyStr.path_join tempDirectory (object_name obj)).
Local Abbreviation synced := (in_sync sv openStackContainer s3Bucket).

Lemma can_stage_inv w name :
  can_stage tempDirectory openStackContainer w name = true ->
  exists w1,
    os_makedirs (PyStr.path_dirname (PyStr.path_join tempDirectory name)) w
    = (Returns tt, w1)
    /\ forall data,
        open_write (PyStr.path_join tempDirectory name) data
          (record (EvGetObject openStackContainer name) w1)
        = (Returns tt,
           set_files (<[PyStr.path_join tempDirectory name := data]>
                        (files (record (EvGetObject openStackContainer name) w1)))
             (record (EvGetObject openStackContainer name) w1)).
Proof.
  unfold can_stage. cbv zeta.
  destruct (os_makedirs (PyStr.path_dirname (PyStr.path_join tempDirectory name)) w)
    as [[[] | e |] w1]; try discriminate.
  intros Hopen. exists w1. split; [reflexivity |]. intros data.
  unfold open_write in *.
  destruct (PyStr.endswith PyStr.slash (PyStr.path_join tempDirectory name)
            || is_dir (record (EvGetObject openStackContainer name) w1)
                 (PyStr.path_join tempDirectory name)); [discriminate |].
  destruct (negb (parent_exists (record (EvGetObject openStackContainer name) w1)
                    (PyStr.path_join tempDirectory name))); [discriminate |].
  reflexivity.
Qed.

Lemma s3_client_head_object_no_fault key w :
  s3_head_object_fault sv s3Bucket key = None ->
  s3_client_head_object sv s3Bucket key w
  = (match s3_objects w !! (s3Bucket, key) with
     | Some held => Returns (s3_etag sv held)
     | None => Raises (ClientError not_found)
     end, record (EvHeadObject s3Bucket key) w).
Proof.
  intros Hfault. unfold s3_client_head_object, bind, emit, gets. rewrite Hfault. simpl.
  destruct (s3_objects w !! (s3Bucket, key)); reflexivity.
Qed.

Lemma s3_client_head_object_found key w held :
  s3_head_object_fault sv s3Bucket key = None ->
  s3_objects w !! (s3Bucket, key) = Some held ->
  s3_client_head_object sv s3Bucket key w
  = (Returns (s3_etag sv held), record (EvHeadObject s3Bucket key) w).
Proof.
  intros Hfault Hlook. now rewrite s3_client_head_object_no_fault, Hlook.
Qed.

Lemma s3_client_head_object_missing key w :
  s3_head_object_fault sv s3Bucket key = None ->
  s3_objects w !! (s3Bucket, key) = None ->
  s3_client_head_object sv s3Bucket key w
  = (Raises (ClientError not_found), record (EvHeadObject s3Bucket key) w).
Proof.
  intros Hfault Hlook. now rewrite s3_client_head_object_no_fault, Hlook.
Qed.

(** Lines 163 to 166 when the store takes the file at once. *)
Lemma upload_then_remove_ok path key w data rest :
  (0 < retries)%Z ->
  files w !! path = Some data ->
  upload_script w = UploadOk :: rest ->
  upload_then_remove sv path s3Bucket key client config retries w
  = (Returns tt,
     set_files (delete path (files w))
       (after_ok path s3Bucket key config client 0 data rest w)).
Proof.
  intros Hpos Hf Hs.
  unfold upload_then_remove, bind at 1, upload_file_with_retry.
  rewrite (upload_loop_ok sv path s3Bucket key config retries _ client 0%Z w data rest
             Hpos Hf Hs).
  unfold bind, os_remove. simpl. now rewrite Hf.
Qed.

(** A directory marker never calls [upload_file], leaves the script alone
    and touches the bucket under its own key at most. *)
Lemma transfer_object_marker obj w :
  PyStr.endswith PyStr.slash (object_name obj) = true ->
  fst (run obj w) <> Unfinished
  /\ upload_script (snd (run obj w)) = upload_script w
  /\ (s3_objects (snd (run obj w)) = s3_objects w
      \/ s3_objects (snd (run obj w))
         = <[(s3Bucket, object_name obj) := []]> (s3_objects w))
  /\ exists new,
      trace (snd (run obj w)) = trace w ++ new
      /\ upload_calls new = 0.
Proof.
  intros Hmarker.
  pose proof (os_makedirs_frame (PyStr.path_dirname (staged_at obj)) w)
    as (Ht & _ & Ho & Hs).
  unfold transfer_object. cbv zeta. unfold bind.
  pose proof (os_makedirs_ends (PyStr.path_dirname (staged_at obj)) w) as Hends.
  destruct (os_makedirs (PyStr.path_dirname (staged_at obj)) w) as [[[] | e |] w1];
    rewrite ?Hmarker; simpl in Ht, Ho, Hs, Hends.
  - unfold s3_client_put_object, emit.
    destruct (s3_put_object_fault sv s3Bucket (object_name obj)); simpl.
    + rewrite Ht, Ho, Hs. repeat split; [discriminate | now left |].
      now exists [EvPutObject s3Bucket (object_name obj)].
    + rewrite Ht, Ho, Hs, <- app_assoc. repeat split; [discriminate | now right |].
      now eexists [_; _].
  - simpl. rewrite Ht, Ho, Hs. repeat split; [discriminate | now left |].
    exists []. now rewrite app_nil_r.
  - now destruct Hends.
Qed.

End BatchSteps.

Section BatchRuns.

Variable sv : services.
Variables (client : s3_client) (config : Z).
Variables (tempDirectory openStackContainer s3Bucket : string) (retries : Z).

Local Abbreviation run := (fun obj =>
  transfer_object sv obj client config tempDirectory openStackContainer s3Bucket retries).
Local Abbreviation staged_at := (fun obj => PyStr.path_join tempDirectory (object_name obj)).
Local Abbreviation synced := (in_sync sv openStackContainer s3Bucket).
Local Abbreviation stageable := (can_stage tempDirectory openStackContainer).
Local Abbreviation tasks :=
  (transfer_tasks sv client config tempDirectory openStackContainer s3Bucket retries).
Local Abbreviation all_staged :=
  (staging_succeeds sv client config tempDirectory openStackContainer s3Bucket retries).

Lemma in_sync_same_bucket w w' obj :
  s3_objects w' = s3_objects w -> synced w obj -> synced w' obj.
Proof.
  intros Ho (data & held & Hget & Hlook & Hdig).
  exists data, held. now rewrite Ho.
Qed.

Lemma in_sync_other_key w w' obj key bytes :
  s3_objects w' = <[(s3Bucket, key) := bytes]> (s3_objects w) ->
  object_name obj <> key ->
  synced w obj -> synced w' obj.
Proof.
  intros Ho Hne (data & held & Hget & Hlook & Hdig).
  exists data, held. rewrite Ho, lookup_insert_ne by congruence. auto.
Qed.

(** Second time: an object in sync is skipped. *)
Lemma transfer_object_in_sync obj w :
  is_regular obj ->
  stageable w (object_name obj) = true ->
  s3_head_object_fault sv s3Bucket (object_name obj) = None ->
  synced w obj ->
  exists w',
    run obj w = (Returns tt, w')
    /\ trace w' = trace w ++ [ EvGetObject openStackContainer (object_name obj);
                              EvHeadObject s3Bucket (object_name obj);
                              skip_line obj ]
    /\ s3_objects w' = s3_objects w
    /\ upload_script w' = upload_script w.
Proof.
  intros Hreg Hstage Hfault (data & held & Hget & Hlook & Hdig).
  destruct (can_stage_inv _ _ _ _ Hstage) as (w1 & Hmk & Hopen).
  destruct (transfer_object_staged sv obj client config tempDirectory
              openStackContainer s3Bucket retries w w1 _ data Hreg Hmk Hget (Hopen data))
    as (Hstaged & Htrace & Hobj & Hscr & Hrun).
  match type of Hobj with s3_objects ?W = _ => set (w2 := W) in * end.
  assert (Hhead : s3_client_head_object sv s3Bucket (object_name obj) w2
                  = (Returns (s3_etag sv held),
                     record (EvHeadObject s3Bucket (object_name obj)) w2)).
  { apply s3_client_head_object_found; [exact Hfault | now rewrite Hobj]. }
  eexists. split.
  - rewrite Hrun. unfold bind at 1.
    rewrite (probe_destination_up_to_date sv obj s3Bucket _ _ _ _ _ _ Hhead Hdig Hstaged).
    reflexivity.
  - split; [subst w2; simpl in Htrace |- *; rewrite Htrace, <- !app_assoc; reflexivity |].
    split; [exact Hobj | exact Hscr].
Qed.

(** First time: with a store that takes the file, the object ends in
    sync, uploaded or found up to date. *)
Lemma transfer_object_reaches_sync obj w rest :
  (0 < retries)%Z ->
  is_regular obj ->
  stageable w (object_name obj) = true ->
  transferable sv openStackContainer s3Bucket obj ->
  upload_script w = UploadOk :: rest ->
  exists w' data,
    run obj w = (Returns tt, w')
    /\ synced w' obj
    /\ (upload_script w' = UploadOk :: rest \/ upload_script w' = rest)
    /\ (s3_objects w' = s3_objects w
        \/ s3_objects w' = <[(s3Bucket, object_name obj) := data]> (s3_objects w)).
Proof.
  intros Hpos Hreg Hstage Hable Hs.
  destruct (Hable Hreg) as (data & Hget & Hfault & Hdig).
  destruct (s3_objects w !! (s3Bucket, object_name obj)) as [held |] eqn:Hlook.
  - destruct (String.eqb (PyStr.strip PyStr.dquote (s3_etag sv held))
                (file_md5 (hashlib_md5 sv) data)) eqn:Hcmp.
    + apply String.eqb_eq in Hcmp.
      destruct (transfer_object_in_sync obj w Hreg Hstage Hfault)
        as (w' & Hrun & _ & Ho & Hscr).
      { exists data, held. auto. }
      exists w', data. split; [exact Hrun |].
      split; [exists data, held; rewrite Ho; auto |].
      split; [left; now rewrite Hscr | now left].
    + apply String.eqb_neq in Hcmp.
      destruct (can_stage_inv _ _ _ _ Hstage) as (w1 & Hmk & Hopen).
      destruct (transfer_object_staged sv obj client config tempDirectory
                  openStackContainer s3Bucket retries w w1 _ data Hreg Hmk Hget
                  (Hopen data))
        as (Hstaged & Htrace & Hobj & Hscr & Hrun).
      match type of Hobj with s3_objects ?W = _ => set (w2 := W) in * end.
      assert (Hhead : s3_client_head_object sv s3Bucket (object_name obj) w2
                      = (Returns (s3_etag sv held),
                         record (EvHeadObject s3Bucket (object_name obj)) w2)).
      { apply s3_client_head_object_found; [exact Hfault | now rewrite Hobj]. }
      eexists. exists data. split.
      * rewrite Hrun. unfold bind at 1.
        rewrite (probe_destination_changed sv obj s3Bucket _ _ _ _ _ Hhead Hcmp).
        apply (upload_then_remove_ok sv client config s3Bucket retries
                 (staged_at obj) (object_name obj) _ data rest Hpos).
        -- exact Hstaged.
        -- simpl. rewrite <- Hs, <- Hscr. reflexivity.
      * split.
        -- exists data, data. split; [exact Hget |].
           split; [simpl; apply lookup_insert_eq | exact Hdig].
        -- split; [now right |]. right. simpl. now rewrite <- Hobj.
  - destruct (can_stage_inv _ _ _ _ Hstage) as (w1 & Hmk & Hopen).
    destruct (transfer_object_staged sv obj client config tempDirectory
                openStackContainer s3Bucket retries w w1 _ data Hreg Hmk Hget
                (Hopen data))
      as (Hstaged & Htrace & Hobj & Hscr & Hrun).
    match type of Hobj with s3_objects ?W = _ => set (w2 := W) in * end.
    assert (Hhead : s3_client_head_object sv s3Bucket (object_name obj) w2
                    = (Raises (ClientError not_found),
                       record (EvHeadObject s3Bucket (object_name obj)) w2)).
    { apply s3_client_head_object_missing; [exact Hfault | now rewrite Hobj]. }
    eexists. exists data. split.
    + rewrite Hrun. unfold bind at 1.
      rewrite (probe_destination_absent sv obj s3Bucket _ _ _ _ _ Hhead eq_refl).
      apply (upload_then_remove_ok sv client config s3Bucket retries
               (staged_at obj) (object_name obj) _ data rest Hpos).
      * exact Hstaged.
      * simpl. rewrite <- Hs, <- Hscr. reflexivity.
    + split.
      * exists data, data. split; [exact Hget |].
        split; [simpl; apply lookup_insert_eq | exact Hdig].
      * split; [now right |]. right. simpl. now rewrite <- Hobj.
Qed.

End BatchRuns.

(** ** A whole batch, first and second time *)

Section BatchProperties.

Variable sv : services.
Variables (client : s3_client) (config : Z).
Variables (tempDirectory openStackContainer s3Bucket : string) (retries : Z).

Local Abbreviation run := (fun obj =>
  transfer_object sv obj client config tempDirectory openStackContainer s3Bucket retries).
Local Abbreviation synced := (in_sync sv openStackContainer s3Bucket).
Local Abbreviation able := (transferable sv openStackContainer s3Bucket).
Local Abbreviation tasks :=
  (transfer_tasks sv client config tempDirectory openStackContainer s3Bucket retries).
Local Abbreviation all_staged :=
  (staging_succeeds sv client config tempDirectory openStackContainer s3Bucket retries).

Lemma regular_is_no_marker (o obj : swift_entry) :
  is_regular o ->
  PyStr.endswith PyStr.slash (object_name obj) = true ->
  object_name o <> object_name obj.
Proof. unfold is_regular. intros Hreg Hmarker Heq. rewrite Heq in Hreg. congruence. Qed.

(** What one object of the batch leaves of the synchronisation the
    objects before it reached. *)
Lemma in_sync_kept_by_marker obj w o :
  PyStr.endswith PyStr.slash (object_name obj) = true ->
  is_regular o -> synced w o -> synced (snd (run obj w)) o.
Proof.
  intros Hmarker Hreg Hsync.
  destruct (transfer_object_marker sv client config tempDirectory openStackContainer
              s3Bucket retries obj w Hmarker) as (_ & _ & [Ho | Ho] & _).
  - eapply in_sync_same_bucket; eauto.
  - eapply in_sync_other_key; eauto. now apply regular_is_no_marker.
Qed.

Lemma first_run (objects : list swift_entry) :
  forall (w : world) (n : nat),
    (0 < retries)%Z ->
    Forall able objects ->
    length objects <= n ->
    upload_script w = repeat UploadOk n ->
    all_staged objects w ->
    exists futures w',
      executor_run (tasks objects) w = (Returns futures, w')
      /\ Forall (fun o => is_regular o -> synced w' o) objects
      /\ (forall o, is_regular o -> synced w o -> synced w' o).
Proof.
  induction objects as [| obj objects IH]; intros w n Hpos Hable Hlen Hs Hstaged.
  - exists [], w. repeat split; auto.
  - apply Forall_cons in Hable. destruct Hable as [Hobj Hable].
    destruct Hstaged as [Hstage Hstaged].
    destruct n as [| n]; [simpl in Hlen; lia |].
    destruct (PyStr.endswith PyStr.slash (object_name obj)) eqn:Hkind.
    + (* a directory marker *)
      destruct (transfer_object_marker sv client config tempDirectory openStackContainer
                  s3Bucket retries obj w Hkind) as (Hends & Hscr & _ & _).
      destruct (IH (snd (run obj w)) (S n) Hpos Hable) as (futures & w' & Hrun & Hall & Hkeep);
        [simpl in Hlen; lia | now rewrite Hscr | exact Hstaged |].
      exists (fst (run obj w) :: futures), w'.
      split.
      { change (tasks (obj :: objects)) with (run obj :: tasks objects).
        rewrite executor_run_cons by exact Hends.
        unfold bind. now rewrite Hrun. }
      split.
      { apply Forall_cons. split; [| exact Hall].
        unfold is_regular. congruence. }
      intros o Hreg Hsync. apply Hkeep; [exact Hreg |].
      now apply in_sync_kept_by_marker.
    + (* a regular object *)
      destruct (transfer_object_reaches_sync sv client config tempDirectory
                  openStackContainer s3Bucket retries obj w (repeat UploadOk n)
                  Hpos Hkind (Hstage Hkind) Hobj Hs)
        as (w1 & data & Hrun1 & Hsync1 & Hscr & Hbucket).
      assert (Hw1 : snd (run obj w) = w1) by now rewrite Hrun1.
      rewrite Hw1 in Hstaged.
      assert (Hscript : exists m, length objects <= m /\ upload_script w1 = repeat UploadOk m).
      { destruct Hscr as [Hscr | Hscr].
        - exists (S n). split; [simpl in Hlen; lia | exact Hscr].
        - exists n. split; [simpl in Hlen; lia | exact Hscr]. }
      destruct Hscript as (m & Hm & Hsm).
      destruct (IH w1 m Hpos Hable Hm Hsm Hstaged) as (futures & w' & Hrun & Hall & Hkeep).
      assert (Hstep : forall o, is_regular o -> synced w o -> synced w1 o).
      { intros o Hreg Hsync.
        destruct (string_dec (object_name o) (object_name obj)) as [Heq | Hne].
        - destruct o as [name], obj as [name']. simpl in Heq. subst name'. exact Hsync1.
        - destruct Hbucket as [Ho | Ho].
          + eapply in_sync_same_bucket; eauto.
          + eapply in_sync_other_key; eauto. }
      exists (Returns tt :: futures), w'.
      split.
      { change (tasks (obj :: objects)) with (run obj :: tasks objects).
        rewrite executor_run_cons by (rewrite Hrun1; discriminate).
        rewrite Hrun1. unfold bind. simpl. now rewrite Hrun. }
      split.
      { apply Forall_cons. split; [| exact Hall].
        intros _. apply Hkeep; [exact Hkind | exact Hsync1]. }
      intros o Hreg Hsync. apply Hkeep; [exact Hreg |]. now apply Hstep.
Qed.

Lemma second_run (objects : list swift_entry) :
  forall w : world,
    Forall able objects ->
    Forall (fun o => is_regular o -> synced w o) objects ->
    all_staged objects w ->
    exists futures w' new,
      executor_run (tasks objects) w = (Returns futures, w')
      /\ trace w' = trace w ++ new
      /\ upload_calls new = 0
      /\ Forall (fun o => is_regular o -> In (skip_line o) new) objects.
Proof.
  induction objects as [| obj objects IH]; intros w Hable Hsync Hstaged.
  - exists [], w, []. rewrite app_nil_r. repeat split; auto.
  - apply Forall_cons in Hable. destruct Hable as [Hobj Hable].
    apply Forall_cons in Hsync. destruct Hsync as [Hsobj Hsync].
    destruct Hstaged as [Hstage Hstaged].
    destruct (PyStr.endswith PyStr.slash (object_name obj)) eqn:Hkind.
    + destruct (transfer_object_marker sv client config tempDirectory openStackContainer
                  s3Bucket retries obj w Hkind) as (Hends & _ & _ & new1 & Htr1 & Hup1).
      destruct (IH (snd (run obj w)) Hable) as (futures & w' & new & Hrun & Htr & Hup & Hall).
      { eapply Forall_impl; [exact Hsync |]. intros o Ho Hreg.
        apply in_sync_kept_by_marker; auto. }
      { exact Hstaged. }
      exists (fst (run obj w) :: futures), w', (new1 ++ new).
      split.
      { change (tasks (obj :: objects)) with (run obj :: tasks objects).
        rewrite executor_run_cons by exact Hends.
        unfold bind. now rewrite Hrun. }
      split; [rewrite Htr, Htr1, app_assoc; reflexivity |].
      split; [rewrite upload_calls_app; lia |].
      apply Forall_cons. split; [unfold is_regular; congruence |].
      eapply Forall_impl; [exact Hall |]. intros o Ho Hreg.
      apply in_or_app. right. auto.
    + destruct (Hobj Hkind) as (data & _ & Hfault & _).
      destruct (transfer_object_in_sync sv client config tempDirectory openStackContainer
                  s3Bucket retries obj w Hkind (Hstage Hkind) Hfault (Hsobj Hkind))
        as (w1 & Hrun1 & Htr1 & Ho1 & _).
      assert (Hw1 : snd (run obj w) = w1) by now rewrite Hrun1.
      rewrite Hw1 in Hstaged.
      destruct (IH w1 Hable) as (futures & w' & new & Hrun & Htr & Hup & Hall).
      { eapply Forall_impl; [exact Hsync |]. intros o Ho Hreg.
        eapply in_sync_same_bucket; eauto. }
      { exact Hstaged. }
      eexists (Returns tt :: futures), w', (_ ++ new).
      split.
      { change (tasks (obj :: objects)) with (run obj :: tasks objects).
        rewrite executor_run_cons by (rewrite Hrun1; discriminate).
        rewrite Hrun1. unfold bind. simpl. now rewrite Hrun. }
      split; [rewrite Htr, Htr1, <- app_assoc; reflexivity |].
      split; [rewrite upload_calls_app, Hup; reflexivity |].
      apply Forall_cons. split.
      { intros _. apply in_or_app. left. simpl. auto. }
      eapply Forall_impl; [exact Hall |]. intros o Ho Hreg.
      apply in_or_app. right. auto.
Qed.


End BatchProperties.


(** * Further properties of the program *)

(** ** [ensure_bucket_exists] and the start of [main] *)

Section Setup.

Variable sv : services.
Variables (openStackContainer s3Bucket regionName : string).
Variables (maxWorkers bandwidthLimitMb : Z).

(** X1.  [ensure_bucket_exists] returns without a log line when
    [head_bucket] succeeds; on a [ClientError] of code 404 it logs that the
    bucket does not exist and raises a plain [Exception] naming the bucket;
    on any other [ClientError] it logs the failure and raises that same
    error again. *)
Theorem ensure_bucket_exists_cases :
  forall w : world,
    (s3_head_bucket sv s3Bucket = None ->
       ensure_bucket_exists sv s3Bucket w
       = (Returns tt, record (EvHeadBucket s3Bucket) w))
    /\ (forall err,
          s3_head_bucket sv s3Bucket = Some err ->
          Code err = "404" ->
          ensure_bucket_exists sv s3Bucket w
          = (Raises (PyException ("S3 bucket '" ++ s3Bucket ++ "' does not exist.")),
             record (EvLog ERROR ("Bucket " ++ s3Bucket
                                    ++ " does not exist. Exiting the script"))
               (record (EvHeadBucket s3Bucket) w)))
    /\ (forall err,
          s3_head_bucket sv s3Bucket = Some err ->
          Code err <> "404" ->
          ensure_bucket_exists sv s3Bucket w
          = (Raises (ClientError err),
             record (EvLog ERROR ("Failed to access bucket " ++ s3Bucket ++ ": "
                                    ++ Text err))
               (record (EvHeadBucket s3Bucket) w))).
Proof.
  intros w. split; [| split].
  - apply ensure_bucket_exists_ok.
  - intros err Hb Hc. apply String.eqb_eq in Hc.
    unfold ensure_bucket_exists, try_except, s3_client_head_bucket, bind at 1, emit.
    rewrite Hb. unfold raise at 1. cbv beta iota. rewrite Hc. reflexivity.
  - intros err Hb Hc. apply String.eqb_neq in Hc.
    unfold ensure_bucket_exists, try_except, s3_client_head_bucket, bind at 1, emit.
    rewrite Hb. unfold raise at 1. cbv beta iota. rewrite Hc. reflexivity.
Qed.

(** The run of [main] up to the check of the bucket. *)
Lemma main_until_bucket_check fuel w w1 :
  os_makedirs ("/tmp/" ++ s3Bucket) w = (Returns tt, w1) ->
  forall r w2,
    ensure_bucket_exists sv s3Bucket
      (record (EvLog INFO "Starting OpenStack to S3 transfer...") w1) = (r, w2) ->
    (forall e, r = Raises e ->
       main sv fuel openStackContainer s3Bucket maxWorkers regionName bandwidthLimitMb w
       = (Raises e, w2)).
Proof.
  intros Hmk r w2 Hcheck e ->.
  unfold main, create_logger, create_temp_directory, create_openstack_session.
  unfold bind at 1. unfold ret at 1. cbv beta iota.
  unfold bind at 1. unfold logger_info at 1, logger_log, emit. cbv beta iota.
  change (level_enabled INFO) with true. cbv beta iota.
  unfold bind at 1. rewrite os_makedirs_record, Hmk. cbv beta iota. simpl fst. simpl snd.
  unfold bind at 1. unfold ret at 1. cbv beta iota.
  unfold bind at 1.
  change (create_s3_client regionName
            (record (EvLog INFO "Starting OpenStack to S3 transfer...") w1))
    with (Returns {| aws_access_key_id := environ w1 !! "AWS_ACCESS_KEY_ID";
                     aws_secret_access_key := environ w1 !! "AWS_SECRET_ACCESS_KEY";
                     aws_session_token := environ w1 !! "AWS_SESSION_TOKEN";
                     region_name := regionName |},
          record (EvLog INFO "Starting OpenStack to S3 transfer...") w1).
  cbv beta iota.
  unfold bind at 1. rewrite Hcheck. reflexivity.
Qed.


End Setup.


Lemma ensure_bucket_exists_cases_witness :
  ensure_bucket_exists (Double.store [] []) "bucket" Double.empty_world
  = (Returns tt, record (EvHeadBucket "bucket") Double.empty_world).
Proof.
  destruct (ensure_bucket_exists_cases (Double.store [] []) "bucket" Double.empty_world)
    as (Hok & _).
  apply Hok. reflexivity.
Defined.

(** ** The two listings *)

Section ListingProperties.

Variable sv : services.

Lemma list_openstack_pages_drains (pages : list (list swift_entry)) :
  forall fuel container objects marker w,
    swift_pages sv container marker pages ->
    length pages < fuel ->
    exists w',
      list_openstack_pages sv fuel container objects marker w
      = (Returns (objects ++ concat pages), w')
      /\ trace w' = trace w ++ map (EvGetContainer container) (markers_asked marker pages)
      /\ files w' = files w
      /\ dirs w' = dirs w
      /\ s3_objects w' = s3_objects w
      /\ upload_script w' = upload_script w.
Proof.
  induction pages as [| page pages IH]; intros fuel container objects marker w Hpages Hfuel;
    (destruct fuel as [| fuel]; [simpl in Hfuel; lia |]).
  - simpl in Hpages. eexists. split.
    + simpl. unfold bind at 1, swift_connection_get_container, bind at 1, emit.
      rewrite Hpages. simpl. rewrite app_nil_r. reflexivity.
    + repeat split.
  - destruct Hpages as (Hne & Hpage & Hlater).
    destruct (last page) as [final |] eqn:Hlast;
      [| apply last_None in Hlast; contradiction].
    destruct (IH fuel container (objects ++ page) (next_marker page marker)
                (record (EvGetContainer container marker) w) Hlater)
      as (w' & Hrun & Htr & Hfi & Hdi & Hob & Hsc); [simpl in Hfuel; lia |].
    exists w'. split.
    + simpl. unfold bind at 1, swift_connection_get_container, bind at 1, emit.
      rewrite Hpage. unfold ret at 1. cbv beta iota. rewrite Hlast.
      unfold next_marker in Hrun. rewrite Hlast in Hrun. rewrite Hrun.
      now rewrite <- app_assoc.
    + split; [rewrite Htr; simpl; now rewrite <- app_assoc |].
      repeat split; assumption.
Qed.

(** X3.  [list_openstack_objects] asks for page after page, each time from
    the last name it received, until a page comes back empty, and returns
    all the entries in the order received; it touches nothing but the
    container. *)
Theorem list_openstack_objects_drains_pages :
  forall (pages : list (list swift_entry)) (fuel : nat) (container : string) (w : world),
    swift_pages sv container None pages ->
    length pages < fuel ->
    exists w',
      list_openstack_objects sv fuel container w = (Returns (concat pages), w')
      /\ trace w' = trace w ++ map (EvGetContainer container) (markers_asked None pages)
      /\ files w' = files w
      /\ s3_objects w' = s3_objects w.
Proof.
  intros pages fuel container w Hpages Hfuel.
  destruct (list_openstack_pages_drains pages fuel container [] None w Hpages Hfuel)
    as (w' & Hrun & Htr & Hfi & _ & Hob & _).
  exists w'. split; [| auto].
  unfold list_openstack_objects, bind at 1. rewrite Hrun. reflexivity.
Qed.

Lemma list_openstack_pages_never_ends (fuel : nat) :
  forall container objects marker w,
    (forall m, exists page,
        page <> [] /\ swift_get_container sv container m = inr page) ->
    fst (list_openstack_pages sv fuel container objects marker w) = Unfinished.
Proof.
  induction fuel as [| fuel IH]; intros container objects marker w Hfull; [reflexivity |].
  destruct (Hfull marker) as (page & Hne & Hpage).
  destruct (last page) as [final |] eqn:Hlast;
    [| apply last_None in Hlast; contradiction].
  simpl. unfold bind at 1, swift_connection_get_container, bind at 1, emit.
  rewrite Hpage. unfold ret at 1. cbv beta iota. rewrite Hlast.
  now apply IH.
Qed.

(** X4.  The listing of the container ends only on an empty page: against
    a store that answers every marker with a non-empty page,
    [list_openstack_objects] never returns, whatever the number of pages
    allowed. *)
Theorem list_openstack_objects_needs_an_empty_page :
  forall (fuel : nat) (container : string) (w : world),
    (forall m, exists page,
        page <> [] /\ swift_get_container sv container m = inr page) ->
    fst (list_openstack_objects sv fuel container w) = Unfinished.
Proof.
  intros fuel container w Hfull.
  pose proof (list_openstack_pages_never_ends fuel container [] None w Hfull) as Hloop.
  unfold list_openstack_objects, bind at 1.
  destruct (list_openstack_pages sv fuel container [] None w) as [[objects | e |] w'];
    simpl in Hloop; try discriminate. reflexivity.
Qed.

Lemma list_s3_pages_step fuel bucket keys token w response :
  s3_list_objects_v2 sv (s3_objects w) bucket (sent_token token) = inr response ->
  list_s3_pages sv (S fuel) bucket keys token w
  = (if IsTruncated response
     then list_s3_pages sv fuel bucket (keys ++ page_keys response)
            (NextContinuationToken response)
     else ret (keys ++ page_keys response))
      (record (EvListObjectsV2 bucket (sent_token token)) w).
Proof.
  intros Hanswer. simpl. unfold sent_token in *.
  destruct (truthy token);
    unfold bind at 1, s3_client_list_objects_v2, bind at 1, emit, bind at 1, gets;
    simpl; rewrite Hanswer; unfold ret at 1; cbv beta iota;
    unfold page_keys; destruct (Contents response); rewrite ?app_nil_r; reflexivity.
Qed.

Lemma list_s3_pages_drains (later : list list_response) :
  forall response fuel bucket keys token w,
    s3_pages sv (s3_objects w) bucket token response later ->
    length later < fuel ->
    exists w',
      list_s3_pages sv fuel bucket keys token w
      = (Returns (keys ++ flat_map page_keys (response :: later)), w')
      /\ trace w' = trace w ++ map (EvListObjectsV2 bucket) (tokens_sent token response later)
      /\ files w' = files w
      /\ s3_objects w' = s3_objects w.
Proof.
  induction later as [| next later IH]; intros response fuel bucket keys token w Hpages Hfuel;
    (destruct fuel as [| fuel]; [simpl in Hfuel; lia |]).
  - destruct Hpages as (Hanswer & Hlast).
    eexists. split.
    + rewrite (list_s3_pages_step _ _ _ _ _ _ Hanswer), Hlast.
      simpl. rewrite app_nil_r. reflexivity.
    + repeat split.
  - destruct Hpages as (Hanswer & Htrunc & Hlater).
    destruct (IH next fuel bucket (keys ++ page_keys response)
                (NextContinuationToken response)
                (record (EvListObjectsV2 bucket (sent_token token)) w) Hlater)
      as (w' & Hrun & Htr & Hfi & Hob); [simpl in Hfuel; lia |].
    exists w'. split.
    + rewrite (list_s3_pages_step _ _ _ _ _ _ Hanswer), Htrunc, Hrun.
      now rewrite <- app_assoc.
    + split; [rewrite Htr; simpl; now rewrite <- app_assoc |].
      split; assumption.
Qed.

(** X5.  [list_s3_objects] follows the continuation tokens: it asks again
    as long as the answer is truncated, sending the token of the answer
    before, and returns the keys of all the answers in order; an answer
    with no [Contents] adds nothing. *)
Theorem list_s3_objects_follows_tokens :
  forall (response : list_response) (later : list list_response) (fuel : nat)
         (bucket : string) (w : world),
    s3_pages sv (s3_objects w) bucket None response later ->
    length later < fuel ->
    exists w',
      list_s3_objects sv fuel bucket w
      = (Returns (flat_map page_keys (response :: later)), w')
      /\ trace w' = trace w ++ map (EvListObjectsV2 bucket) (tokens_sent None response later)
      /\ files w' = files w
      /\ s3_objects w' = s3_objects w.
Proof.
  intros response later fuel bucket w Hpages Hfuel.
  destruct (list_s3_pages_drains later response fuel bucket [] None w Hpages Hfuel)
    as (w' & Hrun & Htr & Hfi & Hob).
  exists w'. split; [| auto].
  unfold list_s3_objects, bind at 1. rewrite Hrun. reflexivity.
Qed.

Lemma list_s3_pages_restarts (fuel : nat) :
  forall response bucket keys token w,
    truthy token = false ->
    s3_list_objects_v2 sv (s3_objects w) bucket None = inr response ->
    IsTruncated response = true ->
    truthy (NextContinuationToken response) = false ->
    fst (list_s3_pages sv fuel bucket keys token w) = Unfinished
    /\ trace (snd (list_s3_pages sv fuel bucket keys token w))
       = trace w ++ repeat (EvListObjectsV2 bucket None) fuel.
Proof.
  induction fuel as [| fuel IH]; intros response bucket keys token w Htoken Hanswer Htrunc Hnext.
  - simpl. now rewrite app_nil_r.
  - assert (Hsent : sent_token token = None) by (unfold sent_token; now rewrite Htoken).
    rewrite (list_s3_pages_step fuel bucket keys token w response)
      by (rewrite Hsent; exact Hanswer).
    rewrite Htrunc, Hsent.
    destruct (IH response bucket (keys ++ page_keys response)
                (NextContinuationToken response)
                (record (EvListObjectsV2 bucket None) w) Hnext Hanswer Htrunc Hnext)
      as (Hres & Htr).
    split; [exact Hres |].
    rewrite Htr. simpl. now rewrite <- app_assoc.
Qed.

(** X6.  A truncated answer that carries no token, or an empty one, sends
    [list_s3_objects] back to the start: the next request is again the one
    without a token, and against a store that answers it the same way the
    listing never returns. *)
Theorem list_s3_objects_restarts_without_token :
  forall (response : list_response) (fuel : nat) (bucket : string) (w : world),
    s3_list_objects_v2 sv (s3_objects w) bucket None = inr response ->
    IsTruncated response = true ->
    truthy (NextContinuationToken response) = false ->
    fst (list_s3_objects sv fuel bucket w) = Unfinished
    /\ trace (snd (list_s3_objects sv fuel bucket w))
       = trace w ++ repeat (EvListObjectsV2 bucket None) fuel.
Proof.
  intros response fuel bucket w Hanswer Htrunc Hnext.
  destruct (list_s3_pages_restarts fuel response bucket [] None w eq_refl
              Hanswer Htrunc Hnext) as (Hres & Htr).
  destruct (list_s3_pages sv fuel bucket [] None w) as [[keys | e |] w'] eqn:Hloop;
    simpl in Hres; try discriminate.
  unfold list_s3_objects, bind. rewrite Hloop. auto.
Qed.

End ListingProperties.

Lemma list_openstack_objects_drains_pages_witness :
  exists w',
    list_openstack_objects Double.paged 5 "container" Double.empty_world
    = (Returns [ {| object_name := "a.txt" |}; {| object_name := "b.txt" |};
                 {| object_name := "c.txt" |} ], w')
    /\ trace w' = [ EvGetContainer "container" None;
                    EvGetContainer "container" (Some "b.txt");
                    EvGetContainer "container" (Some "c.txt") ].
Proof.
  destruct (list_openstack_objects_drains_pages Double.paged
              [ [ {| object_name := "a.txt" |}; {| object_name := "b.txt" |} ];
                [ {| object_name := "c.txt" |} ] ]
              5 "container" Double.empty_world)
    as (w' & Hrun & Htrace & _).
  - repeat split; discriminate.
  - simpl. lia.
  - exists w'. auto.
Defined.

Lemma list_openstack_objects_needs_an_empty_page_witness :
  fst (list_openstack_objects Double.endless 7 "container" Double.empty_world)
  = Unfinished.
Proof.
  apply list_openstack_objects_needs_an_empty_page.
  intros m. eexists. split; [| reflexivity]. discriminate.
Defined.

Lemma list_s3_objects_follows_tokens_witness :
  exists w',
    list_s3_objects Double.paged 5 "bucket" Double.empty_world
    = (Returns ["a.txt"; "b.txt"; "c.txt"], w')
    /\ trace w' = [ EvListObjectsV2 "bucket" None;
                    EvListObjectsV2 "bucket" (Some "page2") ].
Proof.
  destruct (list_s3_objects_follows_tokens Double.paged
              {| Contents := Some ["a.txt"; "b.txt"]; IsTruncated := true;
                 NextContinuationToken := Some "page2" |}
              [ {| Contents := Some ["c.txt"]; IsTruncated := false;
                   NextContinuationToken := None |} ]
              5 "bucket" Double.empty_world)
    as (w' & Hrun & Htrace & _).
  - repeat split.
  - simpl. lia.
  - exists w'. auto.
Defined.

Lemma list_s3_objects_restarts_without_token_witness :
  fst (list_s3_objects Double.endless 6 "bucket" Double.empty_world) = Unfinished
  /\ trace (snd (list_s3_objects Double.endless 6 "bucket" Double.empty_world))
     = repeat (EvListObjectsV2 "bucket" None) 6.
Proof.
  apply (list_s3_objects_restarts_without_token Double.endless
           {| Contents := Some ["a.txt"]; IsTruncated := true;
              NextContinuationToken := None |}
           6 "bucket" Double.empty_world); reflexivity.
Defined.

(** ** [calculate_md5] *)

Lemma read_chunks_concat (fuel : nat) :
  forall (n : nat) (data : list byte),
    0 < n -> length data <= fuel -> concat (read_chunks fuel n data) = data.
Proof.
  induction fuel as [| fuel IH]; intros n data Hn Hlen.
  - destruct data; [reflexivity | simpl in Hlen; lia].
  - destruct data as [| b data]; [reflexivity |].
    change (read_chunks (S fuel) n (b :: data))
      with (take n (b :: data) :: read_chunks fuel n (drop n (b :: data))).
    change (concat (?c :: ?cs)) with (c ++ concat cs).
    rewrite IH; [apply take_drop | exact Hn |].
    rewrite length_drop. simpl in *. lia.
Qed.

Lemma read_chunks_sizes (fuel : nat) :
  forall (n : nat) (data : list byte),
    0 < n ->
    Forall (fun chunk => 0 < length chunk <= n) (read_chunks fuel n data).
Proof.
  induction fuel as [| fuel IH]; intros n data Hn.
  - destruct data; constructor.
  - destruct data as [| b data]; [constructor |].
    change (read_chunks (S fuel) n (b :: data))
      with (take n (b :: data) :: read_chunks fuel n (drop n (b :: data))).
    constructor; [| now apply IH].
    rewrite length_take. simpl. lia.
Qed.

(** X7.  [calculate_md5] returns the [hexdigest] of a fresh hash object
    updated, in order, with chunks of the file that are never empty and
    never longer than 4096 bytes, and which put end to end are the bytes
    of the file. *)
Theorem calculate_md5_reads_bounded_chunks :
  forall (sv : services) (filePath : string) (data : list byte) (w : world),
    files w !! filePath = Some data ->
    exists chunks : list (list byte),
      calculate_md5 sv filePath w
      = (Returns (md5_hexdigest (hashlib_md5 sv)
                    (fold_left (md5_update (hashlib_md5 sv)) chunks
                       (md5_new (hashlib_md5 sv)))), w)
      /\ Forall (fun chunk => 0 < length chunk <= 4096) chunks
      /\ concat chunks = data.
Proof.
  intros sv filePath data w Hf.
  exists (read_chunks (length data) 4096 data). split; [| split].
  - now rewrite (calculate_md5_staged sv filePath data w Hf).
  - apply read_chunks_sizes. apply Nat.lt_0_succ.
  - apply read_chunks_concat; [apply Nat.lt_0_succ | reflexivity].
Qed.

Lemma calculate_md5_reads_bounded_chunks_witness :
  exists chunks : list (list byte),
    calculate_md5 (Double.store [] []) "/tmp/bucket/a.txt" (Double.staged [])
    = (Returns (PyStr.str_int (fold_left Double.checksum chunks 7%Z)), Double.staged [])
    /\ concat chunks = [x68; x69].
Proof.
  destruct (calculate_md5_reads_bounded_chunks (Double.store [] []) "/tmp/bucket/a.txt"
              [x68; x69] (Double.staged []) eq_refl)
    as (chunks & Hrun & _ & Hconcat).
  exists chunks. auto.
Defined.

Lemma fold_left_update (h : hasher) :
  (forall s a b, md5_update h (md5_update h s a) b = md5_update h s (a ++ b)) ->
  (forall s, md5_update h s [] = s) ->
  forall chunks s,
    fold_left (md5_update h) chunks s = md5_update h s (concat chunks).
Proof.
  intros Happ Hnil. induction chunks as [| c chunks IH]; intros s; simpl.
  - now rewrite Hnil.
  - now rewrite IH, Happ.
Qed.

(** X8.  With a hash object for which updating with two pieces is updating
    with their concatenation, [calculate_md5] returns the digest of the
    whole content of the file, and leaves the world as it is. *)
Theorem calculate_md5_is_the_digest_of_the_file :
  forall (sv : services) (filePath : string) (data : list byte) (w : world),
    (forall s a b,
        md5_update (hashlib_md5 sv) (md5_update (hashlib_md5 sv) s a) b
        = md5_update (hashlib_md5 sv) s (a ++ b)) ->
    (forall s, md5_update (hashlib_md5 sv) s [] = s) ->
    files w !! filePath = Some data ->
    calculate_md5 sv filePath w
    = (Returns (md5_hexdigest (hashlib_md5 sv)
                  (md5_update (hashlib_md5 sv) (md5_new (hashlib_md5 sv)) data)), w).
Proof.
  intros sv filePath data w Happ Hnil Hf.
  rewrite (calculate_md5_staged sv filePath data w Hf).
  unfold file_md5. rewrite (fold_left_update _ Happ Hnil).
  now rewrite read_chunks_concat by (try apply Nat.lt_0_succ; reflexivity).
Qed.

Lemma calculate_md5_is_the_digest_of_the_file_witness :
  calculate_md5 (Double.store [] []) "/tmp/bucket/a.txt" (Double.staged [])
  = (Returns (PyStr.str_int (Double.checksum 7 [x68; x69])), Double.staged []).
Proof.
  apply (calculate_md5_is_the_digest_of_the_file (Double.store [] [])
           "/tmp/bucket/a.txt" [x68; x69] (Double.staged [])).
  - intros s a b. symmetry. apply fold_left_app.
  - reflexivity.
  - reflexivity.
Defined.

(** ** The quotes of an ETag *)

Lemma rstrip_keeps (c : ascii) (s : string) :
  PyStr.endswith c s = false -> PyStr.rstrip c s = s.
Proof.
  induction s as [| a s IH]; [reflexivity |].
  intros Hend. simpl in *. destruct s as [| b s].
  - simpl. now rewrite Hend.
  - rewrite IH by exact Hend. reflexivity.
Qed.

Lemma rstrip_snoc (c : ascii) (s : string) :
  PyStr.rstrip c (s ++ String c EmptyString) = PyStr.rstrip c s.
Proof.
  induction s as [| a s IH].
  - simpl. now rewrite Ascii.eqb_refl.
  - change (PyStr.rstrip c (String a (s ++ String c EmptyString))
            = PyStr.rstrip c (String a s)).
    simpl. now rewrite IH.
Qed.

(** X9.  Stripping the quotes gives back what was put between them: for a
    digest that neither starts nor ends with a double quote, the ETag made
    of the digest between double quotes compares equal to it in
    [transfer_object]. *)
Theorem strip_undoes_the_quotes :
  forall digest : string,
    PyStr.startswith PyStr.dquote digest = false ->
    PyStr.endswith PyStr.dquote digest = false ->
    PyStr.strip PyStr.dquote
      (String PyStr.dquote (digest ++ String PyStr.dquote EmptyString))
    = digest.
Proof.
  intros digest Hstart Hend. unfold PyStr.strip.
  change (PyStr.lstrip PyStr.dquote
            (String PyStr.dquote (digest ++ String PyStr.dquote EmptyString)))
    with (PyStr.lstrip PyStr.dquote (digest ++ String PyStr.dquote EmptyString)).
  destruct digest as [| a digest].
  - reflexivity.
  - simpl in Hstart.
    change (PyStr.lstrip PyStr.dquote
              (String a digest ++ String PyStr.dquote EmptyString))
      with (if Ascii.eqb a PyStr.dquote
            then PyStr.lstrip PyStr.dquote (digest ++ String PyStr.dquote EmptyString)
            else String a digest ++ String PyStr.dquote EmptyString)%string.
    rewrite Hstart, rstrip_snoc. now apply rstrip_keeps.
Qed.

Lemma strip_undoes_the_quotes_witness :
  PyStr.strip PyStr.dquote
    (String PyStr.dquote ("9e107d9d372bb6826bd81d3542a419d6"
                            ++ String PyStr.dquote EmptyString))
  = "9e107d9d372bb6826bd81d3542a419d6".
Proof. apply strip_undoes_the_quotes; reflexivity. Defined.

(** ** More on [upload_file_with_retry] *)

Section RetryEdges.

Variable sv : services.
Variables (path bucket key : string) (config retries : Z).

Lemma backoffs_cons (first : Z) (count : nat) :
  backoffs first (S count) = (2 ^ (first + 1))%Z :: backoffs (first + 1) count.
Proof.
  unfold backoffs. rewrite <- cons_seq, <- seq_shift, map_cons, map_map.
  f_equal; [f_equal; lia |].
  apply map_ext. intros i. f_equal. lia.
Qed.

Lemma upload_loop_backs_off (fails : list upload_result) :
  forall turns client attempt w data rest,
    Forall plain_failure fails ->
    Z.of_nat (length fails) = Z.max 0 (retries - attempt) ->
    length fails <= turns ->
    files w !! path = Some data ->
    upload_script w = fails ++ rest ->
    exists w' new,
      upload_loop sv turns path bucket key config retries client attempt w
      = (Returns false, w')
      /\ trace w' = trace w ++ new
      /\ sleeps new = backoffs attempt (length fails).
Proof.
  induction fails as [| f fails IH]; intros turns client attempt w data rest Hall Hlen Hturns Hf Hs.
  - exists w, []. rewrite upload_loop_done by (simpl in Hlen; lia).
    now rewrite app_nil_r.
  - apply Forall_cons in Hall. destruct Hall as [(err & -> & Hcode) Hall].
    destruct turns as [| turns]; [simpl in Hturns; lia |].
    rewrite (upload_loop_failed sv path bucket key config retries turns client attempt
               w data err (fails ++ rest));
      [| simpl length in Hlen; lia | exact Hf | exact Hs | exact Hcode].
    destruct (IH turns client (attempt + 1)%Z
                (after_failed path bucket key config retries client attempt err
                   (fails ++ rest) w) data rest Hall)
      as (w' & new & Hrun & Htr & Hsl);
      [simpl length in Hlen; lia | simpl in Hturns; lia | exact Hf | reflexivity |].
    exists w'. eexists. split; [exact Hrun |].
    split; [rewrite Htr, after_failed_trace, <- app_assoc; reflexivity |].
    rewrite sleeps_app, Hsl. simpl length. now rewrite backoffs_cons.
Qed.

(** X10.  When every attempt fails with a [ClientError] other than token
    expiry, the sleeps of [upload_file_with_retry] are 2, 4, 8, ... up to
    [2 ** retries] seconds, one per attempt, with no cap. *)
Theorem retry_backoff_doubles :
  forall (client : s3_client) (w : world) (data : list byte)
         (fails rest : list upload_result),
    files w !! path = Some data ->
    Forall plain_failure fails ->
    length fails = Z.to_nat retries ->
    upload_script w = fails ++ rest ->
    exists w' new,
      upload_file_with_retry sv path bucket key client config retries w
      = (Returns false, w')
      /\ trace w' = trace w ++ new
      /\ sleeps new = map (fun i => (2 ^ (1 + Z.of_nat i))%Z) (seq 0 (Z.to_nat retries)).
Proof.
  intros client w data fails rest Hf Hall Hlen Hs.
  destruct (upload_loop_backs_off fails (S (length (upload_script w))) client 0%Z w
              data rest Hall)
    as (w' & new & Hrun & Htr & Hsl); try assumption.
  { lia. }
  { rewrite Hs, length_app. lia. }
  exists w', new. split; [exact Hrun |]. split; [exact Htr |].
  rewrite Hsl, Hlen. reflexivity.
Qed.

Lemma upload_loop_expires_for_ever (script : list upload_result) :
  forall turns client attempt w data,
    (attempt < retries)%Z ->
    Forall (fun r => is_expiry r = true) script ->
    length script < turns ->
    files w !! path = Some data ->
    upload_script w = script ->
    exists new,
      fst (upload_loop sv turns path bucket key config retries client attempt w)
      = Unfinished
      /\ trace (snd (upload_loop sv turns path bucket key config retries client attempt w))
         = trace w ++ new
      /\ upload_calls new = S (length script)
      /\ refreshes new = length script
      /\ sleeps new = [].
Proof.
  induction script as [| r script IH]; intros turns client attempt w data Hlt Hall Hturns Hf Hs;
    (destruct turns as [| turns]; [simpl in Hturns; lia |]).
  - rewrite (upload_loop_unanswered sv path bucket key config retries turns client
               attempt w data Hlt Hf Hs).
    now exists [EvUploadFile client path bucket key config].
  - apply Forall_cons in Hall. destruct Hall as [Hexp Hall].
    destruct r as [| [err | | | | | | | |]]; try discriminate Hexp.
    simpl in Hexp. apply String.eqb_eq in Hexp.
    rewrite (upload_loop_expired sv path bucket key config retries turns client
               attempt w data err script Hlt Hf Hs Hexp).
    destruct (IH turns
                (refresh_client sv (region_name client)
                   (before_refresh path bucket key config client script w))
                attempt
                (refresh_world sv (region_name client)
                   (before_refresh path bucket key config client script w))
                data Hlt Hall)
      as (new & Hres & Htr & Hup & Hre & Hsl);
      [simpl in Hturns; lia | exact Hf | reflexivity |].
    eexists. split; [exact Hres |].
    split; [rewrite Htr, before_refresh_trace, <- app_assoc; reflexivity |].
    rewrite upload_calls_app, refreshes_app, sleeps_app, Hup, Hre, Hsl.
    repeat split.
Qed.

(** X11.  Token expiry is retried without end: as long as the store
    answers [ExpiredToken], [upload_file_with_retry] asks for new
    credentials and calls [upload_file] again, never sleeps and never
    returns. *)
Theorem expired_token_is_retried_for_ever :
  forall (client : s3_client) (w : world) (data : list byte),
    (0 < retries)%Z ->
    files w !! path = Some data ->
    Forall (fun r => is_expiry r = true) (upload_script w) ->
    exists new,
      fst (upload_file_with_retry sv path bucket key client config retries w) = Unfinished
      /\ trace (snd (upload_file_with_retry sv path bucket key client config retries w))
         = trace w ++ new
      /\ upload_calls new = S (length (upload_script w))
      /\ refreshes new = length (upload_script w)
      /\ sleeps new = [].
Proof.
  intros client w data Hpos Hf Hall.
  apply (upload_loop_expires_for_ever (upload_script w)
           (S (length (upload_script w))) client 0%Z w data Hpos Hall);
    [lia | exact Hf | reflexivity].
Qed.

(** X12.  An exception of [upload_file] that is no [ClientError] is not
    retried: it leaves [upload_file_with_retry] after one call and no
    sleep, then [transfer_object], and the staged file stays on the
    disk. *)
Theorem other_upload_errors_propagate :
  forall (client : s3_client) (w : world) (data : list byte) (e : exn)
         (rest : list upload_result),
    (0 < retries)%Z ->
    files w !! path = Some data ->
    upload_script w = UploadRaises e :: rest ->
    (forall err, e <> ClientError err) ->
    exists w',
      upload_file_with_retry sv path bucket key client config retries w = (Raises e, w')
      /\ upload_then_remove sv path bucket key client config retries w = (Raises e, w')
      /\ trace w' = trace w ++ [EvUploadFile client path bucket key config]
      /\ files w' !! path = Some data.
Proof.
  intros client w data e rest Hpos Hf Hs He.
  assert (Hrun : upload_file_with_retry sv path bucket key client config retries w
                 = (Raises e,
                    set_upload_script rest
                      (record (EvUploadFile client path bucket key config) w))).
  { unfold upload_file_with_retry.
    apply (upload_loop_other sv path bucket key config retries _ client 0%Z w data e rest
             Hpos Hf Hs He). }
  eexists. split; [exact Hrun |].
  split; [unfold upload_then_remove, bind; now rewrite Hrun |].
  split; [reflexivity | exact Hf].
Qed.

(** X13.  With a budget of attempts that is zero or negative,
    [upload_file_with_retry] returns [False] at once, without a call, and
    [transfer_object] logs the upload as failed and removes the staged
    file. *)
Theorem no_attempt_without_budget :
  forall (client : s3_client) (w : world) (data : list byte),
    (retries <= 0)%Z ->
    files w !! path = Some data ->
    upload_file_with_retry sv path bucket key client config retries w = (Returns false, w)
    /\ upload_then_remove sv path bucket key client config retries w
       = (Returns tt,
          set_files (delete path (files w))
            (record (EvLog ERROR ("Failed to upload " ++ key ++ ". Exiting the script."))
               w)).
Proof.
  intros client w data Hle Hf.
  assert (Hrun : upload_file_with_retry sv path bucket key client config retries w
                 = (Returns false, w)).
  { unfold upload_file_with_retry. now apply upload_loop_done. }
  split; [exact Hrun |].
  unfold upload_then_remove, bind. rewrite Hrun. simpl.
  unfold os_remove. simpl. now rewrite Hf.
Qed.

End RetryEdges.

Lemma retry_backoff_doubles_witness :
  exists w' new,
    upload_file_with_retry (Double.store [] []) "/tmp/bucket/a.txt" "bucket" "a.txt"
      Double.client 1048576 4
      (Double.staged [Double.failure "500"; Double.failure "500"; Double.failure "503";
                      Double.failure "500"])
    = (Returns false, w')
    /\ trace w' = new
    /\ sleeps new = [2; 4; 8; 16]%Z.
Proof.
  destruct (retry_backoff_doubles (Double.store [] []) "/tmp/bucket/a.txt" "bucket"
              "a.txt" 1048576 4 Double.client
              (Double.staged [Double.failure "500"; Double.failure "500";
                              Double.failure "503"; Double.failure "500"])
              [x68; x69]
              [Double.failure "500"; Double.failure "500"; Double.failure "503";
               Double.failure "500"] [])
    as (w' & new & Hrun & Htrace & Hsleeps).
  - reflexivity.
  - repeat constructor; apply plain_failure_double; discriminate.
  - reflexivity.
  - reflexivity.
  - exists w', new. auto.
Defined.

Lemma expired_token_is_retried_for_ever_witness :
  exists new,
    fst (upload_file_with_retry (Double.store [] []) "/tmp/bucket/a.txt" "bucket" "a.txt"
           Double.client 1048576 3
           (Double.staged [Double.failure "ExpiredToken"; Double.failure "ExpiredToken"]))
    = Unfinished
    /\ upload_calls new = 3
    /\ refreshes new = 2.
Proof.
  destruct (expired_token_is_retried_for_ever (Double.store [] []) "/tmp/bucket/a.txt"
              "bucket" "a.txt" 1048576 3 Double.client
              (Double.staged [Double.failure "ExpiredToken"; Double.failure "ExpiredToken"])
              [x68; x69])
    as (new & Hres & _ & Hcalls & Hrefreshes & _).
  - lia.
  - reflexivity.
  - repeat constructor.
  - exists new. auto.
Defined.

Lemma other_upload_errors_propagate_witness :
  exists w',
    upload_then_remove (Double.store [] []) "/tmp/bucket/a.txt" "bucket" "a.txt"
      Double.client 1048576 3
      (Double.staged [UploadRaises (S3UploadFailedError "connection reset")])
    = (Raises (S3UploadFailedError "connection reset"), w')
    /\ files w' !! "/tmp/bucket/a.txt" = Some [x68; x69].
Proof.
  destruct (other_upload_errors_propagate (Double.store [] []) "/tmp/bucket/a.txt"
              "bucket" "a.txt" 1048576 3 Double.client
              (Double.staged [UploadRaises (S3UploadFailedError "connection reset")])
              [x68; x69] (S3UploadFailedError "connection reset") [])
    as (w' & _ & Hrun & _ & Hleft).
  - lia.
  - reflexivity.
  - reflexivity.
  - discriminate.
  - exists w'. auto.
Defined.

Lemma no_attempt_without_budget_witness :
  upload_file_with_retry (Double.store [] []) "/tmp/bucket/a.txt" "bucket" "a.txt"
    Double.client 1048576 0 (Double.staged [UploadOk])
  = (Returns false, Double.staged [UploadOk]).
Proof.
  destruct (no_attempt_without_budget (Double.store [] []) "/tmp/bucket/a.txt" "bucket"
              "a.txt" 1048576 0 Double.client (Double.staged [UploadOk]) [x68; x69])
    as (Hrun & _).
  - lia.
  - reflexivity.
  - exact Hrun.
Defined.

(** ** [refresh_credentials] *)

(** X14.  [refresh_credentials] asks for three lines, stores them in the
    environment under the three AWS names, and returns a client made of
    exactly those three lines and the region it was given. *)
Theorem refresh_credentials_uses_the_lines_entered :
  forall (sv : services) (regionName : string) (w : world),
    exists w',
      refresh_credentials sv regionName w
      = (Returns {| aws_access_key_id := Some (stdin sv (inputs_read w));
                    aws_secret_access_key := Some (stdin sv (S (inputs_read w)));
                    aws_session_token := Some (stdin sv (S (S (inputs_read w))));
                    region_name := regionName |}, w')
      /\ environ w' !! "AWS_ACCESS_KEY_ID" = Some (stdin sv (inputs_read w))
      /\ environ w' !! "AWS_SECRET_ACCESS_KEY" = Some (stdin sv (S (inputs_read w)))
      /\ environ w' !! "AWS_SESSION_TOKEN" = Some (stdin sv (S (S (inputs_read w))))
      /\ inputs_read w' = S (S (S (inputs_read w)))
      /\ trace w' = trace w ++ [ EvInput "Enter AWS Access Key ID: ";
                                EvInput "Enter AWS Secret Access Key: ";
                                EvInput "Enter AWS Session Token: " ]
      /\ files w' = files w
      /\ s3_objects w' = s3_objects w.
Proof.
  intros sv regionName w.
  assert (H1 : (<["AWS_SESSION_TOKEN" := stdin sv (S (S (inputs_read w)))]>
                  (<["AWS_SECRET_ACCESS_KEY" := stdin sv (S (inputs_read w))]>
                     (<["AWS_ACCESS_KEY_ID" := stdin sv (inputs_read w)]> (environ w))))
                 !! "AWS_ACCESS_KEY_ID" = Some (stdin sv (inputs_read w))).
  { rewrite !lookup_insert_ne by discriminate. apply lookup_insert_eq. }
  assert (H2 : (<["AWS_SESSION_TOKEN" := stdin sv (S (S (inputs_read w)))]>
                  (<["AWS_SECRET_ACCESS_KEY" := stdin sv (S (inputs_read w))]>
                     (<["AWS_ACCESS_KEY_ID" := stdin sv (inputs_read w)]> (environ w))))
                 !! "AWS_SECRET_ACCESS_KEY" = Some (stdin sv (S (inputs_read w)))).
  { rewrite lookup_insert_ne by discriminate. apply lookup_insert_eq. }
  assert (H3 : (<["AWS_SESSION_TOKEN" := stdin sv (S (S (inputs_read w)))]>
                  (<["AWS_SECRET_ACCESS_KEY" := stdin sv (S (inputs_read w))]>
                     (<["AWS_ACCESS_KEY_ID" := stdin sv (inputs_read w)]> (environ w))))
                 !! "AWS_SESSION_TOKEN" = Some (stdin sv (S (S (inputs_read w)))))
    by apply lookup_insert_eq.
  eexists. split.
  - unfold refresh_credentials, create_s3_client, bind, input, os_environ_set,
      os_getenv, modify, gets, ret.
    cbn [inputs_read set_inputs_read record set_trace set_environ environ
         files dirs s3_objects upload_script trace].
    rewrite H1, H2, H3. reflexivity.
  - cbn [inputs_read set_inputs_read record set_trace set_environ environ
         files dirs s3_objects upload_script trace].
    rewrite <- !app_assoc. repeat split; assumption.
Qed.

(** ** [remove_temp_directory] *)

Lemma shutil_rmtree_clears (root : string) (w : world) (p : string) :
  let w' := set_dirs (filter (fun q => under root q = false) (dirs w))
              (set_files (filter (fun kv => under root kv.1 = false) (files w)) w) in
  (under root p = true -> files w' !! p = None /\ p ∉ dirs w')
  /\ (under root p = false ->
      files w' !! p = files w !! p /\ (p ∈ dirs w' <-> p ∈ dirs w)).
Proof.
  cbv zeta. cbn [files dirs set_dirs set_files]. split; intros Hp.
  - split.
    + apply map_lookup_filter_None_2. right. intros x _. simpl. congruence.
    + rewrite elem_of_filter. intros [Hout _]. congruence.
  - split.
    + destruct (files w !! p) as [x |] eqn:Hlook.
      * apply map_lookup_filter_Some_2; [exact Hlook | exact Hp].
      * apply map_lookup_filter_None_2. now left.
    + rewrite elem_of_filter. tauto.
Qed.

(** X15.  For a path written without a trailing separator:
    [remove_temp_directory] on a directory removes every file and
    directory at or below it and nothing else, and logs one line; on a
    path that does not exist it does nothing and logs nothing; on a path
    that is a regular file it raises. *)
Theorem remove_temp_directory_cases :
  forall (tempDirectory : string) (w : world),
    PyStr.endswith PyStr.slash tempDirectory = false ->
    (is_dir w tempDirectory = true ->
       exists w',
         remove_temp_directory tempDirectory w = (Returns tt, w')
         /\ trace w' = trace w ++ [EvLog INFO "Temporary files have been removed"]
         /\ s3_objects w' = s3_objects w
         /\ forall p,
             (under tempDirectory p = true -> files w' !! p = None /\ p ∉ dirs w')
             /\ (under tempDirectory p = false ->
                 files w' !! p = files w !! p /\ (p ∈ dirs w' <-> p ∈ dirs w)))
    /\ (is_dir w tempDirectory = false -> is_file w tempDirectory = false ->
        remove_temp_directory tempDirectory w = (Returns tt, w))
    /\ (is_dir w tempDirectory = false -> is_file w tempDirectory = true ->
        remove_temp_directory tempDirectory w
        = (Raises (NotADirectoryError tempDirectory), w)).
Proof.
  intros tempDirectory w _. split; [| split].
  - intros Hdir. eexists. split.
    + unfold remove_temp_directory, bind at 1, os_path_exists, gets.
      rewrite Hdir, orb_true_r.
      unfold bind, shutil_rmtree. rewrite Hdir. reflexivity.
    + split; [reflexivity |]. split; [reflexivity |].
      intros p. apply (shutil_rmtree_clears tempDirectory w p).
  - intros Hdir Hfile.
    unfold remove_temp_directory, bind at 1, os_path_exists, gets.
    now rewrite Hdir, Hfile.
  - intros Hdir Hfile.
    unfold remove_temp_directory, bind at 1, os_path_exists, gets.
    rewrite Hdir, Hfile. simpl.
    unfold bind, shutil_rmtree. now rewrite Hdir, Hfile.
Qed.

Lemma remove_temp_directory_cases_witness :
  exists w',
    remove_temp_directory "/tmp/bucket" (Double.staged []) = (Returns tt, w')
    /\ files w' !! "/tmp/bucket/a.txt" = None
    /\ "/tmp" ∈ dirs w'.
Proof.
  destruct (remove_temp_directory_cases "/tmp/bucket" (Double.staged []) eq_refl)
    as (Hdir & _).
  destruct (Hdir eq_refl) as (w' & Hrun & _ & _ & Hclear).
  exists w'. split; [exact Hrun |]. split.
  - apply (Hclear "/tmp/bucket/a.txt"). reflexivity.
  - apply (Hclear "/tmp"); [reflexivity |]. vm_compute. reflexivity.
Defined.

(** ** Token expiry and the budget of attempts *)

Section ExpiryProperties.

Variable sv : services.
Variables (path bucket key : string) (config retries : Z).

Lemma plain_failure_is_no_expiry (r : upload_result) :
  plain_failure r -> is_expiry r = false.
Proof. intros (err & -> & Hcode). simpl. now apply String.eqb_neq. Qed.

Lemma expiry_count_app (s t : list upload_result) :
  expiry_count (s ++ t) = expiry_count s + expiry_count t.
Proof. unfold expiry_count. now rewrite List.filter_app, length_app. Qed.

Lemma plain_count_app (s t : list upload_result) :
  plain_count (s ++ t) = plain_count s + plain_count t.
Proof. unfold plain_count, without_expiry. now rewrite List.filter_app, length_app. Qed.

Lemma counts_cons (r : upload_result) (s : list upload_result) :
  expiry_count (r :: s) = (if is_expiry r then 1 else 0) + expiry_count s
  /\ plain_count (r :: s) = (if is_expiry r then 0 else 1) + plain_count s.
Proof.
  unfold expiry_count, plain_count, without_expiry. simpl.
  destruct (is_expiry r); simpl; auto.
Qed.

(** The loop over answers that are token expiries or failures that count:
    it comes out of them with the attempt counter moved by the failures
    that count only. *)
Lemma upload_loop_through (answers : list upload_result) :
  forall turns client attempt w data tail,
    Forall (fun r => is_expiry r = true \/ plain_failure r) answers ->
    (attempt + Z.of_nat (plain_count answers) < retries)%Z ->
    files w !! path = Some data ->
    upload_script w = answers ++ tail ->
    exists client' w' new,
      upload_loop sv (length answers + turns) path bucket key config retries client
        attempt w
      = upload_loop sv turns path bucket key config retries client'
          (attempt + Z.of_nat (plain_count answers))%Z w'
      /\ trace w' = trace w ++ new
      /\ upload_calls new = length answers
      /\ refreshes new = expiry_count answers
      /\ sleeps new = backoffs attempt (plain_count answers)
      /\ files w' = files w
      /\ upload_script w' = tail
      /\ s3_objects w' = s3_objects w.
Proof.
  induction answers as [| r answers IH]; intros turns client attempt w data tail Hall Hlt Hf Hs.
  - exists client, w, []. rewrite app_nil_r.
    replace (attempt + Z.of_nat (plain_count []))%Z with attempt
      by (unfold plain_count; simpl; lia).
    repeat split. exact Hs.
  - apply Forall_cons in Hall. destruct Hall as [Hr Hall].
    destruct (counts_cons r answers) as (Hec & Hpc).
    destruct Hr as [Hexp | Hplain].
    + (* a token expiry: same attempt *)
      rewrite Hexp in Hec, Hpc. simpl in Hec, Hpc.
      destruct r as [| [err | | | | | | | |]]; try discriminate Hexp.
      simpl in Hexp. apply String.eqb_eq in Hexp.
      change (length (UploadRaises (ClientError err) :: answers) + turns)
        with (S (length answers + turns)).
      rewrite (upload_loop_expired sv path bucket key config retries _ client attempt
                 w data err (answers ++ tail)); [| lia | exact Hf | exact Hs | exact Hexp].
      destruct (IH turns
                  (refresh_client sv (region_name client)
                     (before_refresh path bucket key config client (answers ++ tail) w))
                  attempt
                  (refresh_world sv (region_name client)
                     (before_refresh path bucket key config client (answers ++ tail) w))
                  data tail Hall)
        as (client' & w' & new & Hrun & Htr & Hup & Hre & Hsl & Hfi & Hsc & Hob);
        [lia | exact Hf | reflexivity |].
      exists client', w'. eexists. rewrite Hpc. split; [exact Hrun |].
      split; [rewrite Htr, before_refresh_trace, <- app_assoc; reflexivity |].
      rewrite upload_calls_app, refreshes_app, sleeps_app, Hup, Hre, Hsl, Hec.
      repeat split; assumption.
    + (* a failure that counts: the next attempt *)
      pose proof (plain_failure_is_no_expiry r Hplain) as Hno.
      rewrite Hno in Hec, Hpc. simpl in Hec, Hpc.
      destruct Hplain as (err & -> & Hcode).
      change (length (UploadRaises (ClientError err) :: answers) + turns)
        with (S (length answers + turns)).
      rewrite (upload_loop_failed sv path bucket key config retries _ client attempt
                 w data err (answers ++ tail)); [| lia | exact Hf | exact Hs | exact Hcode].
      destruct (IH turns client (attempt + 1)%Z
                  (after_failed path bucket key config retries client attempt err
                     (answers ++ tail) w)
                  data tail Hall)
        as (client' & w' & new & Hrun & Htr & Hup & Hre & Hsl & Hfi & Hsc & Hob);
        [lia | exact Hf | reflexivity |].
      exists client', w'. eexists. rewrite Hpc.
      replace (attempt + Z.of_nat (S (plain_count answers)))%Z
        with (attempt + 1 + Z.of_nat (plain_count answers))%Z by lia.
      split; [exact Hrun |].
      split; [rewrite Htr, after_failed_trace, <- app_assoc; reflexivity |].
      rewrite upload_calls_app, refreshes_app, sleeps_app, Hup, Hre, Hsl, Hec, backoffs_cons.
      repeat split; assumption.
Qed.


End ExpiryProperties.


(** C5 fails on this input.  The first two uploads fail with an exception
    that is no [ClientError], the third would succeed: the first failure
    leaves [upload_file_with_retry] after one call and no sleep. *)
Lemma other_failures_end_the_retries_at_once :
  let run :=
    upload_file_with_retry (Double.store [] []) "/tmp/bucket/a.txt" "bucket" "a.txt"
      Double.client 1048576 3
      (Double.staged [ UploadRaises (S3UploadFailedError "connection reset");
                       UploadRaises (S3UploadFailedError "connection reset");
                       UploadOk ]) in
  fst run = Raises (S3UploadFailedError "connection reset")
  /\ fst run <> Returns true
  /\ upload_calls (trace (snd run)) = 1
  /\ sleeps (trace (snd run)) = [].
Proof. vm_compute. repeat split. discriminate. Qed.

(** C6 fails on this input.  Every upload fails with an exception that is
    no [ClientError]: [upload_file_with_retry] makes one call, not three,
    and raises; its caller raises too and the staged file stays. *)
Lemma other_failures_are_raised_not_exhausted :
  let w := Double.staged [ UploadRaises (S3UploadFailedError "connection reset");
                           UploadRaises (S3UploadFailedError "connection reset");
                           UploadRaises (S3UploadFailedError "connection reset") ] in
  let retry :=
    upload_file_with_retry (Double.store [] []) "/tmp/bucket/a.txt" "bucket" "a.txt"
      Double.client 1048576 3 w in
  let caller :=
    upload_then_remove (Double.store [] []) "/tmp/bucket/a.txt" "bucket" "a.txt"
      Double.client 1048576 3 w in
  fst retry = Raises (S3UploadFailedError "connection reset")
  /\ upload_calls (trace (snd retry)) = 1
  /\ fst caller = Raises (S3UploadFailedError "connection reset")
  /\ files (snd caller) !! "/tmp/bucket/a.txt" = Some [x68; x69].
Proof. vm_compute. repeat split. Qed.

(** C10 fails on this input.  Every upload fails with an exception that is
    no [ClientError]: there is one call and no sleep at all before the
    error leaves [upload_file_with_retry]. *)
Lemma other_failures_are_not_slept_on :
  let run :=
    upload_file_with_retry (Double.store [] []) "/tmp/bucket/a.txt" "bucket" "a.txt"
      Double.client 1048576 3
      (Double.staged [ UploadRaises (PyException "timed out");
                       UploadRaises (PyException "timed out");
                       UploadRaises (PyException "timed out") ]) in
  fst run = Raises (PyException "timed out")
  /\ sleeps (trace (snd run)) = []
  /\ sleeps (trace (snd run)) <> [2; 4; 8]%Z
  /\ upload_calls (trace (snd run)) = 1.
Proof. vm_compute. repeat split. discriminate. Qed.
